(** * video_poc: the YouTube short-video fetcher

    A shallow embedding of [services/01_url_pull/main.py]: the window
    calculator [_get_date_range], the normalizer [_process_video_items] and
    the pagination loop of [fetch_videos], with the properties the
    specification states about them; and, with further properties of the
    code, the summary [print_video_summary], [save_to_json],
    [_initialize_client] and the program [main].

    Console output ([print]) is modelled where it is all a function does,
    in [print_video_summary]; elsewhere it is not: it has no influence on
    the values returned or on the requests issued. *)

From Stdlib Require Import ZArith String Ascii List Lia.
From Stdlib Require Import Floats.SpecFloat.
From stdpp Require Import gmap strings list fin_maps pretty.

Set Warnings "-register-all".

Open Scope Z_scope.

(** ** Python values, as [json.loads] produces them *)

Inductive pyval : Type :=
  | PNone
  | PBool (b : bool)
  | PInt (n : Z)
  | PFloat (f : spec_float)
  | PStr (s : string)
  | PList (l : list pyval)
  | PDict (d : gmap string pyval).

(** ** Exceptions and results *)

(** The exception classes that can reach [fetch_videos]. [HttpError] is the
    service-reported error of googleapiclient; [TransportError] stands for
    the failures of the transport underneath it (socket errors, timeouts,
    name resolution), all of them subclasses of [Exception]. *)
Inductive exn : Type :=
  | KeyError (key : string)
  | TypeError
  | AttributeError
  | OverflowError
  | HttpError (status : Z)
  | TransportError (msg : string)
  | KeyboardInterrupt
  | SystemExit.

(** [isinstance(e, HttpError)] *)
Definition is_HttpError (e : exn) : bool :=
  match e with HttpError _ => true | _ => false end.

(** [isinstance(e, Exception)]: [KeyboardInterrupt] and [SystemExit] derive
    from [BaseException] only. *)
Definition is_Exception (e : exn) : bool :=
  match e with KeyboardInterrupt | SystemExit => false | _ => true end.

Inductive result (A : Type) : Type :=
  | Ok (a : A)
  | Raise (e : exn).
Arguments Ok {A} a.
Arguments Raise {A} e.

Definition is_Ok {A} (r : result A) : bool :=
  match r with Ok _ => true | Raise _ => false end.

#[export] Instance result_ret : MRet result := fun _ a => Ok a.
#[export] Instance result_bind : MBind result := fun _ _ k r =>
  match r with Ok a => k a | Raise e => Raise e end.

(** ** Operations on Python values *)

Module Py.

(** [bool(v)], the test of [if v:] and [not v]. *)
Definition truthy (v : pyval) : bool :=
  match v with
  | PNone => false
  | PBool b => b
  | PInt n => negb (n =? 0)
  | PFloat (S754_zero _) => false
  | PFloat _ => true
  | PStr s => negb (String.eqb s "")
  | PList l => match l with [] => false | _ :: _ => true end
  | PDict d => negb (bool_decide (d = ∅))
  end.

(** [v[key]] for a string key: a dict looks the key up and raises
    [KeyError] when it is missing; a list or a string rejects a string
    index, the other values are not subscriptable. *)
Definition getitem (v : pyval) (key : string) : result pyval :=
  match v with
  | PDict d =>
      match d !! key with
      | Some x => Ok x
      | None => Raise (KeyError key)
      end
  | _ => Raise TypeError
  end.

(** [v.get(key, default)]: only a dict has the method. *)
Definition get (v : pyval) (key : string) (default : pyval) : result pyval :=
  match v with
  | PDict d =>
      match d !! key with
      | Some x => Ok x
      | None => Ok default
      end
  | _ => Raise AttributeError
  end.

Fixpoint chars (s : string) : list pyval :=
  match s with
  | EmptyString => []
  | String c s' => PStr (String c EmptyString) :: chars s'
  end.

(** [iter(v)], run to the end: the elements a [for] loop visits. A string
    yields its characters and a dict its keys. Python yields the keys in
    insertion order, which a [gmap] does not record; they come here in
    the map's own order. *)
Definition iter (v : pyval) : result (list pyval) :=
  match v with
  | PList l => Ok l
  | PStr s => Ok (chars s)
  | PDict d => Ok (PStr <$> (map_to_list d).*1)
  | _ => Raise TypeError
  end.

End Py.

(** [str(v)] on a value that is not a string, [None], a bool or an int
    (a float, a list, a dict) is left abstract: the program only splices it
    into the watch URL. *)
Class PyRepr := py_repr : pyval -> string.

(** [str(v)], as an f-string field [{v}] formats it. *)
Definition py_str `{PyRepr} (v : pyval) : string :=
  match v with
  | PStr s => s
  | PNone => "None"
  | PBool true => "True"
  | PBool false => "False"
  | PInt n => pretty n
  | _ => py_repr v
  end.

(** ** The [datetime] module: naive date-times and [timedelta]

    The proleptic Gregorian calendar arithmetic behind
    [today - timedelta(days=365)] and the [strftime] directives the program
    uses. *)

Module Datetime.

Record datetime := mk_datetime {
  year : Z; month : Z; day : Z;
  hour : Z; minute : Z; second : Z; microsecond : Z
}.

(** A [timedelta] is kept normalized: [0 <= seconds < 86400] and
    [0 <= microseconds < 1000000]. *)
Record timedelta := mk_timedelta {
  td_days : Z; td_seconds : Z; td_microseconds : Z
}.

Definition timedelta_of (days seconds microseconds : Z) : timedelta :=
  let s := seconds + microseconds / 1000000 in
  {| td_days := days + s / 86400;
     td_seconds := s mod 86400;
     td_microseconds := microseconds mod 1000000 |}.

Definition td_neg (d : timedelta) : timedelta :=
  timedelta_of (- td_days d) (- td_seconds d) (- td_microseconds d).

Definition td_add (a b : timedelta) : timedelta :=
  timedelta_of (td_days a + td_days b) (td_seconds a + td_seconds b)
               (td_microseconds a + td_microseconds b).

Definition MAXORDINAL : Z := 3652059.

Definition is_leap (y : Z) : bool :=
  (y mod 4 =? 0) && (negb (y mod 100 =? 0) || (y mod 400 =? 0)).

Definition days_before_year (y : Z) : Z :=
  let y := y - 1 in y * 365 + y / 4 - y / 100 + y / 400.

Definition DAYS_IN_MONTH (m : Z) : Z :=
  match m with
  | 1 => 31 | 2 => 28 | 3 => 31 | 4 => 30 | 5 => 31 | 6 => 30
  | 7 => 31 | 8 => 31 | 9 => 30 | 10 => 31 | 11 => 30 | 12 => 31
  | _ => -1
  end.

Definition DAYS_BEFORE_MONTH (m : Z) : Z :=
  match m with
  | 1 => 0 | 2 => 31 | 3 => 59 | 4 => 90 | 5 => 120 | 6 => 151
  | 7 => 181 | 8 => 212 | 9 => 243 | 10 => 273 | 11 => 304 | 12 => 334
  | _ => -1
  end.

Definition days_in_month (y m : Z) : Z :=
  if (m =? 2) && is_leap y then 29 else DAYS_IN_MONTH m.

Definition days_before_month (y m : Z) : Z :=
  DAYS_BEFORE_MONTH m + (if (2 <? m) && is_leap y then 1 else 0).

Definition ymd2ord (y m d : Z) : Z :=
  days_before_year y + days_before_month y m + d.

Definition DI400Y : Z := 146097.
Definition DI100Y : Z := 36524.
Definition DI4Y : Z := 1461.

Definition ord2ymd (ordinal : Z) : Z * Z * Z :=
  let n := ordinal - 1 in
  let n400 := n / DI400Y in
  let n := n mod DI400Y in
  let y := n400 * 400 + 1 in
  let n100 := n / DI100Y in
  let n := n mod DI100Y in
  let n4 := n / DI4Y in
  let n := n mod DI4Y in
  let n1 := n / 365 in
  let n := n mod 365 in
  let y := y + n100 * 100 + n4 * 4 + n1 in
  if (n1 =? 4) || (n100 =? 4) then (y - 1, 12, 31)
  else
    let leapyear := (n1 =? 3) && (negb (n4 =? 24) || (n100 =? 3)) in
    let m := Z.shiftr (n + 50) 5 in
    let preceding :=
      DAYS_BEFORE_MONTH m + (if (2 <? m) && leapyear then 1 else 0) in
    if n <? preceding then
      let m := m - 1 in
      let preceding :=
        preceding - (DAYS_IN_MONTH m + (if (m =? 2) && leapyear then 1 else 0)) in
      (y, m, n - preceding + 1)
    else (y, m, n - preceding + 1).

Definition toordinal (dt : datetime) : Z :=
  ymd2ord (year dt) (month dt) (day dt).

(** [dt + delta]; the result must stay within years 1..9999. *)
Definition add (dt : datetime) (other : timedelta) : result datetime :=
  let delta :=
    td_add (timedelta_of (toordinal dt)
              (hour dt * 3600 + minute dt * 60 + second dt) (microsecond dt))
           other in
  let h := td_seconds delta / 3600 in
  let rem := td_seconds delta mod 3600 in
  if (0 <? td_days delta) && (td_days delta <=? MAXORDINAL) then
    let '(y, m, d) := ord2ymd (td_days delta) in
    Ok (mk_datetime y m d h (rem / 60) (rem mod 60) (td_microseconds delta))
  else Raise OverflowError.

(** [dt - delta] is [dt + (-delta)]. *)
Definition sub (dt : datetime) (other : timedelta) : result datetime :=
  add dt (td_neg other).

Definition digit (d : Z) : ascii := ascii_of_nat (48 + Z.to_nat d).

Definition zfill2 (n : Z) : string :=
  String (digit (n / 10 mod 10)) (String (digit (n mod 10)) EmptyString).

Definition zfill4 (n : Z) : string :=
  String (digit (n / 1000 mod 10)) (String (digit (n / 100 mod 10)) (zfill2 n)).

(** The directives of the format the program uses; any other directive
    is copied as it stands. [%Y] is written with four digits, which is
    what every platform does for the years 1000 to 9999. *)
Definition directive (dt : datetime) (c : ascii) : string :=
  match c with
  | "Y"%char => zfill4 (year dt)
  | "m"%char => zfill2 (month dt)
  | "d"%char => zfill2 (day dt)
  | "H"%char => zfill2 (hour dt)
  | "M"%char => zfill2 (minute dt)
  | "S"%char => zfill2 (second dt)
  | _ => String "%" (String c EmptyString)
  end.

Fixpoint strftime (dt : datetime) (fmt : string) : string :=
  match fmt with
  | EmptyString => EmptyString
  | String "%" (String c rest) => directive dt c +:+ strftime dt rest
  | String c rest => String c (strftime dt rest)
  end.

(** The host's clock: the current instant as a UTC date-time, and the
    offset of the host's local zone from UTC, in seconds. *)
Record clock := mk_clock { utc_now : datetime; utcoffset : Z }.

(** [datetime.now()], without a [tz] argument: the naive local
    date-time. *)
Definition now (clk : clock) : result datetime :=
  add (utc_now clk) (timedelta_of 0 (utcoffset clk) 0).


(** A date of the calendar, in the years 1 to 9999. *)
Definition valid_date (y m d : Z) : bool :=
  (1 <=? y) && (y <=? 9999) && (1 <=? m) && (m <=? 12) &&
  (1 <=? d) && (d <=? days_in_month y m).

(** A time of day. *)
Definition valid_time (h mi s us : Z) : bool :=
  (0 <=? h) && (h <? 24) && (0 <=? mi) && (mi <? 60) &&
  (0 <=? s) && (s <? 60) && (0 <=? us) && (us <? 1000000).

(** The date-times a [datetime] object can hold. *)
Definition valid (dt : datetime) : bool :=
  valid_date (year dt) (month dt) (day dt) &&
  valid_time (hour dt) (minute dt) (second dt) (microsecond dt).

(** The time of day, in seconds since midnight. *)
Definition seconds_of_day (dt : datetime) : Z :=
  hour dt * 3600 + minute dt * 60 + second dt.

(** Month and day of the [n]-th day of a year, counted from 0: the last
    steps of [ord2ymd]. *)
Definition month_day (n : Z) (leapyear : bool) : Z * Z :=
  let m := Z.shiftr (n + 50) 5 in
  let preceding :=
    DAYS_BEFORE_MONTH m + (if (2 <? m) && leapyear then 1 else 0) in
  if n <? preceding then
    let m := m - 1 in
    let preceding :=
      preceding - (DAYS_IN_MONTH m + (if (m =? 2) && leapyear then 1 else 0)) in
    (m, n - preceding + 1)
  else (m, n - preceding + 1).

(** What [month_day] has to give for the day [n] of a year. *)
Definition month_day_ok (leapyear : bool) (n : Z) : bool :=
  let '(m, d) := month_day n leapyear in
  (1 <=? m) && (m <=? 12) && (1 <=? d) &&
  (d <=? (if (m =? 2) && leapyear then 29 else DAYS_IN_MONTH m)) &&
  (DAYS_BEFORE_MONTH m + (if (2 <? m) && leapyear then 1 else 0) + d =? n + 1).

(** A duration in microseconds. *)
Definition td_total (d : timedelta) : Z :=
  (td_days d * 86400 + td_seconds d) * 1000000 + td_microseconds d.

(** A date-time in microseconds, counted from the midnight before day 1. *)
Definition dt_total (dt : datetime) : Z :=
  (toordinal dt * 86400 + seconds_of_day dt) * 1000000 + microsecond dt.

End Datetime.

(** ** The fetcher *)

Module YouTubeVideoFetcher.
Import Datetime.

(** The search service behind [self.youtube.search().list(...).execute()]:
    what it answers to a request may depend on the requests made before
    it. The answer is the parsed response, or the exception the call
    raises. *)
Definition service : Type :=
  list (gmap string pyval) -> gmap string pyval -> result pyval.

(** The local variables of [fetch_videos] that the loop updates, and
    [sent], the requests issued to the service so far, oldest first. *)
Record frame := mk_frame {
  all_videos : list pyval;
  next_page_token : pyval;
  page_count : nat;
  sent : list (gmap string pyval)
}.

(** Statements run on a frame and end normally or by raising; what they
    did to the frame before raising stays done. *)
Definition M (A : Type) : Type := frame -> frame * result A.

#[export] Instance M_ret : MRet M := fun _ a s => (s, Ok a).
#[export] Instance M_bind : MBind M := fun _ _ k m s =>
  match m s with
  | (s', Ok a) => k a s'
  | (s', Raise e) => (s', Raise e)
  end.

Definition lift {A} (r : result A) : M A := fun s => (s, r).
Definition read {A} (f : frame -> A) : M A := fun s => (s, Ok (f s)).
Definition modify (f : frame -> frame) : M unit := fun s => (f s, Ok tt).

Inductive control := Continue | Break.

Section Fetcher.
Context `{!PyRepr}.

(** [self.youtube] *)
Variable youtube : service.

Definition execute (request_params : gmap string pyval) : M pyval :=
  fun s =>
    (mk_frame (all_videos s) (next_page_token s) (page_count s)
              (sent s ++ [request_params]),
     youtube (sent s) request_params).

Definition _get_date_range (clk : clock) : result (string * string) :=
  today ← now clk;
  one_year_ago ← sub today (timedelta_of 365 0 0);
  let published_before := strftime today "%Y-%m-%dT%H:%M:%SZ" in
  let published_after := strftime one_year_ago "%Y-%m-%dT%H:%M:%SZ" in
  mret (published_after, published_before).

(** [v[a][b]] *)
Definition getitem2 (v : pyval) (a b : string) : result pyval :=
  x ← Py.getitem v a; Py.getitem x b.

(** The dict display in the body of the [for] loop; its values are
    evaluated in the order written. *)
Definition video_data (item : pyval) : result pyval :=
  video_id ← getitem2 item "id" "videoId";
  title ← getitem2 item "snippet" "title";
  description ← getitem2 item "snippet" "description";
  published_at ← getitem2 item "snippet" "publishedAt";
  channel_title ← getitem2 item "snippet" "channelTitle";
  thumbnail_url ←
    (thumbnails ← getitem2 item "snippet" "thumbnails";
     default ← Py.get thumbnails "default" (PDict ∅);
     Py.get default "url" (PStr ""));
  video_url ←
    (v ← getitem2 item "id" "videoId";
     mret (PStr ("https://www.youtube.com/watch?v=" +:+ py_str v)));
  mret (PDict {[ "video_id" := video_id;
                 "title" := title;
                 "description" := description;
                 "published_at" := published_at;
                 "channel_title" := channel_title;
                 "thumbnail_url" := thumbnail_url;
                 "video_url" := video_url ]}).

(** The [for] loop, with [processed_videos] as accumulator. *)
Fixpoint for_item (items processed_videos : list pyval)
  : result (list pyval) :=
  match items with
  | [] => mret processed_videos
  | item :: rest =>
      vd ← video_data item;
      for_item rest (processed_videos ++ [vd])
  end.

Definition _process_video_items (items : pyval) : result (list pyval) :=
  its ← Py.iter items;
  for_item its [].

Section Loop.
Variable channel_id : string.
Variable max_results_per_page : Z.
Variables published_after published_before : string.

(** The request of one turn of the loop: the fixed filters, and the
    page token when there is one. *)
Definition request_params (token : pyval) : gmap string pyval :=
  let request_params : gmap string pyval :=
    {[ "part" := PStr "snippet";
       "channelId" := PStr channel_id;
       "publishedAfter" := PStr published_after;
       "publishedBefore" := PStr published_before;
       "videoDuration" := PStr "short";
       "type" := PStr "video";
       "maxResults" := PInt max_results_per_page;
       "order" := PStr "date" ]} in
  if Py.truthy token
  then <["pageToken" := token]> request_params
  else request_params.

(** The body of the [try] block. *)
Definition try_body : M control :=
  modify (fun s => mk_frame (all_videos s) (next_page_token s)
                            (page_count s + 1)%nat (sent s));;
  token ← read next_page_token;
  response ← execute (request_params token);
  items ← lift (Py.get response "items" (PList []));
  page_videos ← lift (_process_video_items items);
  modify (fun s => mk_frame (all_videos s ++ page_videos)
                            (next_page_token s) (page_count s) (sent s));;
  token' ← lift (Py.get response "nextPageToken" PNone);
  modify (fun s => mk_frame (all_videos s) token'
                            (page_count s) (sent s));;
  if negb (Py.truthy token') then mret Break else mret Continue.

(** One turn of [while True]: the [try] statement with its two
    handlers, each of which leaves the loop. An exception that is
    not an [Exception] goes through. *)
Definition iteration : M control := fun s =>
  match try_body s with
  | (s', Raise e) =>
      if is_HttpError e then (s', Ok Break)
      else if is_Exception e then (s', Ok Break)
      else (s', Raise e)
  | r => r
  end.

Fixpoint while_true (fuel : nat) (s : frame)
  : option (frame * result unit) :=
  match fuel with
  | O => None
  | S fuel' =>
      match iteration s with
      | (s', Ok Continue) => while_true fuel' s'
      | (s', Ok Break) => Some (s', Ok tt)
      | (s', Raise e) => Some (s', Raise e)
      end
  end.
End Loop.

(** [fetch_videos]: [None] when the fuel does not suffice for the loop
    to end; otherwise the requests issued, and the list returned or
    the exception that left the call. *)
Definition fetch_videos (clk : clock) (channel_id : string)
    (max_results_per_page : Z) (fuel : nat)
  : option (list (gmap string pyval) * result (list pyval)) :=
  match _get_date_range clk with
  | Raise e => Some ([], Raise e)
  | Ok (published_after, published_before) =>
      match while_true channel_id max_results_per_page
              published_after published_before fuel
              (mk_frame [] PNone 0%nat []) with
      | None => None
      | Some (s, Ok _) => Some (sent s, Ok (all_videos s))
      | Some (s, Raise e) => Some (sent s, Raise e)
      end
  end.

End Fetcher.


(** Console output, where it is all a function does: the text of each
    [print] call, in order. A function that raises has printed what came
    before. *)
Definition P (A : Type) : Type := (list string * result A)%type.

#[export] Instance P_ret : MRet P := fun _ a => ([], Ok a).
#[export] Instance P_bind : MBind P := fun _ _ k m =>
  match m with
  | (out, Ok a) => let '(out', r) := k a in (out ++ out', r)
  | (out, Raise e) => (out, Raise e)
  end.

Definition print (text : string) : P unit := ([text], Ok tt).
Definition eval {A} (r : result A) : P A := ([], r).

(** The newline character. *)
Definition nl : string := String (ascii_of_nat 10) EmptyString.

(** [s * n] *)
Fixpoint str_mul (s : string) (n : nat) : string :=
  match n with
  | O => EmptyString
  | S n' => s +:+ str_mul s n'
  end.

(** [f"{i:3d}"]: the decimal digits, with spaces before them up to a
    width of three. *)
Definition format_3d (i : nat) : string :=
  let digits := pretty i in
  str_mul " " (3 - String.length digits) +:+ digits.

Section Summary.
Context `{!PyRepr}.

(** The body of the [for] loop of [print_video_summary]. *)
Definition print_entry (i : nat) (video : pyval) : P unit :=
  title ← eval (Py.getitem video "title");
  print (nl +:+ format_3d i +:+ ". " +:+ py_str title);;
  video_id ← eval (Py.getitem video "video_id");
  print ("     Video ID: " +:+ py_str video_id);;
  published_at ← eval (Py.getitem video "published_at");
  print ("     Published: " +:+ py_str published_at);;
  video_url ← eval (Py.getitem video "video_url");
  print ("     URL: " +:+ py_str video_url).

(** [for i, video in enumerate(videos, i): ...] *)
Fixpoint for_video (i : nat) (videos : list pyval) : P unit :=
  match videos with
  | [] => mret tt
  | video :: rest => print_entry i video;; for_video (S i) rest
  end.

Definition print_video_summary (videos : list pyval) : P unit :=
  match videos with
  | [] => print "No videos found."
  | _ :: _ =>
      print (nl +:+ str_mul "=" 80);;
      print "VIDEO SUMMARY";;
      print (str_mul "=" 80);;
      for_video 1 videos;;
      print (nl +:+ str_mul "=" 80)
  end.

End Summary.

(** [save_to_json]: the [with] block that opens the file and dumps the
    list into it is the host's, [write_file filename videos]; whatever
    [Exception] it raises is caught and reported on the console. *)
Definition save_to_json (write_file : string -> list pyval -> result unit)
    (videos : list pyval) (filename : string) : result unit :=
  match write_file filename videos with
  | Ok _ => Ok tt
  | Raise e => if is_Exception e then Ok tt else Raise e
  end.

(** What a statement of [main] can raise: an exception, or the
    [SystemExit] of [sys.exit(code)]. *)
Inductive signal : Type :=
  | Exc (e : exn)
  | Exit (code : Z).

(** [_initialize_client], with [build key] for
    [build('youtube', 'v3', developerKey=key)]: the client, or what is
    raised instead. *)
Definition _initialize_client (build : string -> result service)
    (api_key : string) : signal + service :=
  match build api_key with
  | Ok youtube => inr youtube
  | Raise e => if is_Exception e then inl (Exit 1) else inl (Exc e)
  end.

End YouTubeVideoFetcher.


Import Datetime YouTubeVideoFetcher.

(** ** Notions the properties are stated with *)

(** The field [a.b] of a raw item: present when the item is a mapping
    whose entry [a] is a mapping with an entry [b]. *)
Definition nested_field (item : pyval) (a b : string) : option pyval :=
  match item with
  | PDict m =>
      match m !! a with
      | Some (PDict m') => m' !! b
      | _ => None
      end
  | _ => None
  end.

(** The fields a record cannot be built without. *)
Definition required_fields : list (string * string) :=
  [ ("id", "videoId"); ("snippet", "title"); ("snippet", "description");
    ("snippet", "publishedAt"); ("snippet", "channelTitle");
    ("snippet", "thumbnails") ].

Definition has_field (item : pyval) (p : string * string) : bool :=
  match nested_field item p.1 p.2 with Some _ => true | None => false end.

Definition has_required_fields (item : pyval) : bool :=
  forallb (has_field item) required_fields.

(** [snippet.thumbnails], when it is a mapping. *)
Definition thumbnails_of (item : pyval) : option (gmap string pyval) :=
  match nested_field item "snippet" "thumbnails" with
  | Some (PDict th) => Some th
  | _ => None
  end.

(** The [default] entry of [snippet.thumbnails], when there is one, is a
    mapping. *)
Definition thumbnail_default_ok (item : pyval) : bool :=
  match thumbnails_of item with
  | Some th =>
      match th !! "default" with
      | None | Some (PDict _) => true
      | Some _ => false
      end
  | None => true
  end.

(** The wire timestamp format of the search service. *)
Definition wire_format : string := "%Y-%m-%dT%H:%M:%SZ".

(** A request failure: the service reports an error, or the transport
    fails. *)
Definition request_failure (e : exn) : bool :=
  match e with
  | HttpError _ | TransportError _ => true
  | _ => false
  end.

Section Pages.
Context `{!PyRepr}.
Variable youtube : service.

(** What the [try] body makes of a response: the page's normalized records
    and the cursor the response carries. *)
Definition page_of (response : pyval) : result (list pyval * pyval) :=
  items ← Py.get response "items" (PList []);
  page_videos ← _process_video_items items;
  token ← Py.get response "nextPageToken" PNone;
  mret (page_videos, token).

(** [answered req hist tok vss hist' tok']: after the requests [hist], and
    with cursor [tok] in hand, the service answers the next requests with
    pages whose normalized records are [vss], in this order, each page
    carrying a cursor that continues the loop; [hist'] are the requests
    issued by then and [tok'] is the cursor of the last page. *)
Inductive answered (req : pyval -> gmap string pyval)
  : list (gmap string pyval) -> pyval -> list (list pyval) ->
    list (gmap string pyval) -> pyval -> Prop :=
  | answered_nil hist tok : answered req hist tok [] hist tok
  | answered_cons hist tok response vs tok' vss hist'' tok'' :
      youtube hist (req tok) = Ok response ->
      page_of response = Ok (vs, tok') ->
      Py.truthy tok' = true ->
      answered req (hist ++ [req tok]) tok' vss hist'' tok'' ->
      answered req hist tok (vs :: vss) hist'' tok''.

End Pages.

(** The frame once the request of a turn of the loop is out. *)
Definition requested (req : pyval -> gmap string pyval) (s : frame) : frame :=
  mk_frame (all_videos s) (next_page_token s) (page_count s + 1)%nat
           (sent s ++ [req (next_page_token s)]).

(** A scripted service, as a test double: the n-th call gets the n-th
    answer of the script, and a call beyond the script fails. *)
Definition mock_service (script : list (result pyval)) : service :=
  fun hist _ =>
    default (Raise (TransportError "no answer left")) (script !! length hist).

(** Sample data: a raw item of the documented shape, a response page, a
    clock. *)
Definition sample_item (video_id : string) (thumbnails : gmap string pyval)
  : pyval :=
  PDict {[ "id" := PDict {[ "kind" := PStr "youtube#video";
                            "videoId" := PStr video_id ]};
           "snippet" := PDict {[ "title" := PStr "A title";
                                 "description" := PStr "";
                                 "publishedAt" := PStr "2025-01-01T00:00:00Z";
                                 "channelTitle" := PStr "A channel";
                                 "thumbnails" := PDict thumbnails ]} ]}.

Definition sample_page (items : list pyval) (token : option pyval) : pyval :=
  PDict (match token with
         | Some t => <["nextPageToken" := t]> {[ "items" := PList items ]}
         | None => {[ "items" := PList items ]}
         end).

Definition sample_clock : clock :=
  mk_clock (mk_datetime 2025 10 26 12 0 0 0) (-14400).

Definition sample_repr : PyRepr := fun _ => "<object>".

(** The record [sample_item video_id] is normalized to, given what its
    thumbnail comes to. *)
Definition sample_record (video_id : string) (thumbnail_url : pyval) : pyval :=
  PDict {[ "video_id" := PStr video_id;
           "title" := PStr "A title";
           "description" := PStr "";
           "published_at" := PStr "2025-01-01T00:00:00Z";
           "channel_title" := PStr "A channel";
           "thumbnail_url" := thumbnail_url;
           "video_url" := PStr ("https://www.youtube.com/watch?v=" +:+ video_id) ]}.

(** An item with everything but its [id.videoId]. *)
Definition sample_item_without_id : pyval :=
  PDict {[ "id" := PDict {[ "kind" := PStr "youtube#video" ]};
           "snippet" := PDict {[ "title" := PStr "A title";
                                 "description" := PStr "";
                                 "publishedAt" := PStr "2025-01-01T00:00:00Z";
                                 "channelTitle" := PStr "A channel";
                                 "thumbnails" := PDict ∅ ]} ]}.

(** The requests of a run on the sample clock, for the channel of [main]
    and the default page size. *)
Definition sample_request (token : pyval) : gmap string pyval :=
  request_params "UC-tE4p-L9f0-w1T1-v8a-qA" 50
    "2024-10-26T08:00:00Z" "2025-10-26T08:00:00Z" token.

(** Closed goals are settled by evaluation. *)
Ltac run := vm_compute; reflexivity.

(** The entry [key] of a record. *)
Definition record_field (rec : pyval) (key : string) : option pyval :=
  match rec with
  | PDict d => d !! key
  | _ => None
  end.

(** [snippet.thumbnails.default.url], when each step is there and both
    [thumbnails] and [default] are mappings. *)
Definition default_thumbnail_url (item : pyval) : option pyval :=
  match thumbnails_of item with
  | Some th =>
      match th !! "default" with
      | Some (PDict default) => default !! "url"
      | _ => None
      end
  | None => None
  end.

(** The keys of a record. *)
Definition record_keys : gset string :=
  {[ "video_id"; "title"; "description"; "published_at"; "channel_title";
     "thumbnail_url"; "video_url" ]}.

Section LastTurn.
Context `{!PyRepr}.
Variable youtube : service.

(** [last_turn req hist tok vs r]: after the requests [hist] and with
    cursor [tok] in hand, the next turn ends the loop, adding the records
    [vs], with [r] for the loop: the request raised (an [Exception] is
    caught, anything else leaves the loop), or the page could not be
    processed, or the page carried no cursor to go on with. *)
Inductive last_turn (req : pyval -> gmap string pyval)
    (hist : list (gmap string pyval)) (tok : pyval)
  : list pyval -> result unit -> Prop :=
  | last_turn_caught e :
      youtube hist (req tok) = Raise e -> is_Exception e = true ->
      last_turn req hist tok [] (Ok tt)
  | last_turn_escapes e :
      youtube hist (req tok) = Raise e -> is_Exception e = false ->
      last_turn req hist tok [] (Raise e)
  | last_turn_page_raises response e :
      youtube hist (req tok) = Ok response -> page_of response = Raise e ->
      last_turn req hist tok [] (Ok tt)
  | last_turn_last_page response vs tok' :
      youtube hist (req tok) = Ok response ->
      page_of response = Ok (vs, tok') -> Py.truthy tok' = false ->
      last_turn req hist tok vs (Ok tt).

End LastTurn.

(** A service that answers every request with the same response. *)
Definition constant_service (response : pyval) : service :=
  fun _ _ => Ok response.

(** The video has the four fields the summary shows. *)
Definition has_summary_fields (video : pyval) : bool :=
  is_Ok (Py.getitem video "title") && is_Ok (Py.getitem video "video_id") &&
  is_Ok (Py.getitem video "published_at") && is_Ok (Py.getitem video "video_url").

(** ** The program: [main] *)

(** What [main] finds on the host: the API key of the environment, the
    key entered at the prompt, the client library, the clock and the file
    system. *)
Record host := mk_host {
  (** [os.getenv('YOUTUBE_API_KEY')] *)
  env_api_key : option string;
  (** [input(...).strip()]: the line entered, stripped, or what [input]
      raises *)
  prompt_api_key : result string;
  (** [build('youtube', 'v3', developerKey=key)] *)
  build : string -> result service;
  host_clock : clock;
  (** opening [filename] for writing and dumping the list into it *)
  write_file : string -> list pyval -> result unit
}.

(** What [main] does to the outside, in order: it prompts for the key,
    builds the client, issues requests, prints the summary, saves the
    list. *)
Inductive event : Type :=
  | Prompt
  | Build (api_key : string)
  | Request (request_params : gmap string pyval)
  | Summary (lines : list string)
  | Save (filename : string) (videos : list pyval).

(** How [main] ends: it returns, it leaves through [sys.exit(code)], or an
    exception escapes it. *)
Inductive ending : Type :=
  | Returned
  | Exited (code : Z)
  | Escaped (e : exn).

Definition CHANNEL_ID : string := "UC-tE4p-L9f0-w1T1-v8a-qA".

(** The handlers of the [try] statement of [main]: [KeyboardInterrupt]
    first, then [Exception]. *)
Definition handlers (e : exn) : ending :=
  match e with
  | KeyboardInterrupt => Exited 0
  | _ => if is_Exception e then Exited 1 else Escaped e
  end.

(** The key [main] goes on with: that of the environment, or when there is
    none the one entered at the prompt. *)
Definition get_api_key (h : host) : list event * (ending + string) :=
  let prompt :=
    match prompt_api_key h with
    | Raise e => ([Prompt], inl (Escaped e))
    | Ok api_key =>
        if String.eqb api_key "" then ([Prompt], inl (Exited 1))
        else ([Prompt], inr api_key)
    end in
  match env_api_key h with
  | Some api_key => if String.eqb api_key "" then prompt else ([], inr api_key)
  | None => prompt
  end.

Section Main.
Context `{!PyRepr}.

(** The [try] statement of [main]. *)
Definition try_main (h : host) (api_key : string) (fuel : nat)
  : option (list event * ending) :=
  match _initialize_client (build h) api_key with
  | inl (Exit code) => Some ([Build api_key], Exited code)
  | inl (Exc e) => Some ([Build api_key], handlers e)
  | inr youtube =>
      match fetch_videos youtube (host_clock h) CHANNEL_ID 50 fuel with
      | None => None
      | Some (reqs, Raise e) =>
          Some (Build api_key :: (Request <$> reqs), handlers e)
      | Some (reqs, Ok videos) =>
          let done := Build api_key :: (Request <$> reqs) in
          match videos with
          | [] => Some (done, Returned)
          | _ :: _ =>
              match print_video_summary videos with
              | (lines, Raise e) => Some (done ++ [Summary lines], handlers e)
              | (lines, Ok _) =>
                  let done :=
                    done ++ [Summary lines; Save "youtube_videos.json" videos] in
                  match save_to_json (write_file h) videos "youtube_videos.json" with
                  | Raise e => Some (done, handlers e)
                  | Ok _ => Some (done, Returned)
                  end
              end
          end
      end
  end.

(** [main]: [None] when the fuel does not suffice for the loop of
    [fetch_videos] to end. *)
Definition main (h : host) (fuel : nat) : option (list event * ending) :=
  match get_api_key h with
  | (asked, inl e) => Some (asked, e)
  | (asked, inr api_key) =>
      match try_main h api_key fuel with
      | None => None
      | Some (done, e) => Some (asked ++ done, e)
      end
  end.

End Main.

(** A host for the sample runs: the key comes from the environment, the
    client is the given service, writing succeeds. *)
Definition sample_host (youtube : service) : host :=
  mk_host (Some "sample-key") (Ok "") (fun _ => Ok youtube) sample_clock
          (fun _ _ => Ok tt).

(** ** Python values and the normalizer *)

Section Normalizer.
Context `{!PyRepr}.

Lemma getitem2_nested item a b v :
  getitem2 item a b = Ok v <-> nested_field item a b = Some v.
Proof.
  unfold getitem2, nested_field, Py.getitem.
  destruct item; simpl; try (split; discriminate).
  destruct (d !! a) as [[]|]; simpl; try (split; discriminate).
  destruct (d0 !! b); simpl; split; congruence.
Qed.

Lemma getitem2_missing item a b :
  nested_field item a b = None ->
  exists e, getitem2 item a b = Raise e /\ is_Exception e = true.
Proof.
  unfold getitem2, nested_field, Py.getitem.
  destruct item; simpl; eauto.
  destruct (d !! a) as [[]|]; simpl; eauto.
  intros ->. simpl. eauto.
Qed.

Lemma getitem2_raise_Exception item a b e :
  getitem2 item a b = Raise e -> is_Exception e = true.
Proof.
  intros Hr. destruct (nested_field item a b) eqn:Hn.
  - apply getitem2_nested in Hn. congruence.
  - destruct (getitem2_missing _ _ _ Hn) as (e' & He' & Hex). congruence.
Qed.

(** The record built from the fields of an item. *)
Lemma video_data_Ok item rec :
  video_data item = Ok rec <->
  exists video_id title description published_at channel_title
         thumbnails default thumbnail_url,
    nested_field item "id" "videoId" = Some video_id /\
    nested_field item "snippet" "title" = Some title /\
    nested_field item "snippet" "description" = Some description /\
    nested_field item "snippet" "publishedAt" = Some published_at /\
    nested_field item "snippet" "channelTitle" = Some channel_title /\
    nested_field item "snippet" "thumbnails" = Some thumbnails /\
    Py.get thumbnails "default" (PDict ∅) = Ok default /\
    Py.get default "url" (PStr "") = Ok thumbnail_url /\
    rec = PDict {[ "video_id" := video_id;
                   "title" := title;
                   "description" := description;
                   "published_at" := published_at;
                   "channel_title" := channel_title;
                   "thumbnail_url" := thumbnail_url;
                   "video_url" :=
                     PStr ("https://www.youtube.com/watch?v=" +:+ py_str video_id) ]}.
Proof.
  unfold video_data. split.
  - intros Hv.
    destruct (getitem2 item "id" "videoId") as [vid|] eqn:E1; [|discriminate].
    destruct (getitem2 item "snippet" "title") as [ti|] eqn:E2; [|discriminate].
    destruct (getitem2 item "snippet" "description") as [de|] eqn:E3; [|discriminate].
    destruct (getitem2 item "snippet" "publishedAt") as [pu|] eqn:E4; [|discriminate].
    destruct (getitem2 item "snippet" "channelTitle") as [ch|] eqn:E5; [|discriminate].
    destruct (getitem2 item "snippet" "thumbnails") as [th|] eqn:E6; [|discriminate].
    simpl in Hv.
    destruct (Py.get th "default" (PDict ∅)) as [df|] eqn:E7; [|discriminate].
    simpl in Hv.
    destruct (Py.get df "url" (PStr "")) as [tu|] eqn:E8; [|discriminate].
    simpl in Hv. injection Hv as <-.
    apply getitem2_nested in E1, E2, E3, E4, E5, E6.
    exists vid, ti, de, pu, ch, th, df, tu. repeat split; assumption.
  - intros (vid & ti & de & pu & ch & th & df & tu &
            E1 & E2 & E3 & E4 & E5 & E6 & E7 & E8 & ->).
    apply getitem2_nested in E1, E2, E3, E4, E5, E6.
    rewrite E1, E2, E3, E4, E5, E6. simpl. rewrite E7. simpl. rewrite E8. reflexivity.
Qed.


Lemma get_raise_Exception v k d e :
  Py.get v k d = Raise e -> is_Exception e = true.
Proof.
  unfold Py.get. destruct v; try (intros [= <-]; reflexivity).
  destruct (d0 !! k); discriminate.
Qed.

(** Whatever the normalizer raises is an [Exception]. *)
Lemma video_data_raise_Exception item e :
  video_data item = Raise e -> is_Exception e = true.
Proof.
  unfold video_data. intros Hv.
  destruct (getitem2 item "id" "videoId") eqn:E1;
    [|injection Hv as <-; eauto using getitem2_raise_Exception].
  destruct (getitem2 item "snippet" "title") eqn:E2;
    [|injection Hv as <-; eauto using getitem2_raise_Exception].
  destruct (getitem2 item "snippet" "description") eqn:E3;
    [|injection Hv as <-; eauto using getitem2_raise_Exception].
  destruct (getitem2 item "snippet" "publishedAt") eqn:E4;
    [|injection Hv as <-; eauto using getitem2_raise_Exception].
  destruct (getitem2 item "snippet" "channelTitle") eqn:E5;
    [|injection Hv as <-; eauto using getitem2_raise_Exception].
  destruct (getitem2 item "snippet" "thumbnails") eqn:E6;
    [|injection Hv as <-; eauto using getitem2_raise_Exception].
  simpl in Hv.
  destruct (Py.get a4 "default" (PDict ∅)) eqn:E7;
    [|injection Hv as <-; eauto using get_raise_Exception].
  simpl in Hv.
  destruct (Py.get a5 "url" (PStr "")) eqn:E8;
    [|injection Hv as <-; eauto using get_raise_Exception].
  discriminate.
Qed.

Lemma has_required_fields_true item :
  has_required_fields item = true <->
  exists video_id title description published_at channel_title thumbnails,
    nested_field item "id" "videoId" = Some video_id /\
    nested_field item "snippet" "title" = Some title /\
    nested_field item "snippet" "description" = Some description /\
    nested_field item "snippet" "publishedAt" = Some published_at /\
    nested_field item "snippet" "channelTitle" = Some channel_title /\
    nested_field item "snippet" "thumbnails" = Some thumbnails.
Proof.
  unfold has_required_fields, required_fields, has_field. simpl. split.
  - destruct (nested_field item "id" "videoId") as [vid|]; [|discriminate].
    destruct (nested_field item "snippet" "title") as [ti|]; [|discriminate].
    destruct (nested_field item "snippet" "description") as [de|]; [|discriminate].
    destruct (nested_field item "snippet" "publishedAt") as [pu|]; [|discriminate].
    destruct (nested_field item "snippet" "channelTitle") as [ch|]; [|discriminate].
    destruct (nested_field item "snippet" "thumbnails") as [th|]; [|discriminate].
    intros _. exists vid, ti, de, pu, ch, th. done.
  - intros (vid & ti & de & pu & ch & th & -> & -> & -> & -> & -> & ->). done.
Qed.

(** An item that lacks a required field is not normalized. *)
Lemma video_data_lacking item :
  has_required_fields item = false ->
  exists e, video_data item = Raise e.
Proof.
  intros Hreq. destruct (video_data item) as [rec|e] eqn:Hv; [|eauto].
  apply video_data_Ok in Hv as
    (vid & ti & de & pu & ch & th & df & tu &
     E1 & E2 & E3 & E4 & E5 & E6 & _).
  assert (has_required_fields item = true) as Hyes; [|congruence].
  apply has_required_fields_true. exists vid, ti, de, pu, ch, th. done.
Qed.

(** The [for] loop appends the records of the items, one for one and in
    their order. *)
Lemma for_item_Ok items processed out :
  for_item items processed = Ok out <->
  exists recs, Forall2 (fun item rec => video_data item = Ok rec) items recs /\
               out = processed ++ recs.
Proof.
  revert processed out. induction items as [|item rest IH]; intros processed out; simpl.
  - split.
    + intros [= <-]. exists []. split; [constructor|]. by rewrite app_nil_r.
    + intros (recs & HF & ->). inversion HF; subst. by rewrite app_nil_r.
  - destruct (video_data item) as [vd|e] eqn:Hv; simpl.
    + rewrite IH. split.
      * intros (recs & HF & ->). exists (vd :: recs). split; [by constructor|].
        by rewrite <- app_assoc.
      * intros (recs & HF & ->). inversion HF as [|? rec ? recs' Hrec HF']; subst.
        assert (rec = vd) as -> by congruence.
        exists recs'. split; [done|]. by rewrite <- app_assoc.
    + split; [discriminate|].
      intros (recs & HF & _). inversion HF; subst. congruence.
Qed.

(** The first item that cannot be normalized ends the loop with its
    exception; the records built before it are lost. *)
Lemma for_item_Raise good bad rest processed e :
  Forall (fun item => is_Ok (video_data item) = true) good ->
  video_data bad = Raise e ->
  for_item (good ++ bad :: rest) processed = Raise e.
Proof.
  intros HF Hbad. revert processed.
  induction HF as [|item good Hitem _ IH]; intros processed; simpl.
  - by rewrite Hbad.
  - destruct (video_data item); [|discriminate]. simpl. apply IH.
Qed.

Lemma for_item_raise_Exception items processed e :
  for_item items processed = Raise e -> is_Exception e = true.
Proof.
  revert processed. induction items as [|item rest IH]; intros processed; simpl;
    [discriminate|].
  destruct (video_data item) eqn:Hv; simpl; [apply IH|].
  intros [= <-]. eauto using video_data_raise_Exception.
Qed.

Lemma process_video_items_list items out :
  _process_video_items (PList items) = Ok out <->
  Forall2 (fun item rec => video_data item = Ok rec) items out.
Proof.
  unfold _process_video_items. simpl. rewrite for_item_Ok. split.
  - intros (recs & HF & ->). done.
  - intros HF. exists out. done.
Qed.

Lemma process_video_items_raise_Exception items e :
  _process_video_items items = Raise e -> is_Exception e = true.
Proof.
  unfold _process_video_items.
  destruct (Py.iter items) eqn:Hi; simpl.
  - apply for_item_raise_Exception.
  - intros [= <-]. destruct items; simpl in Hi; try discriminate;
      injection Hi as <-; reflexivity.
Qed.

Lemma process_video_items_one item :
  _process_video_items (PList [item]) =
  match video_data item with Ok rec => Ok [rec] | Raise e => Raise e end.
Proof.
  unfold _process_video_items. simpl. by destruct (video_data item).
Qed.

(** C4. The [video_url] of a record is the watch URL of the item's
    [id.videoId] and depends on nothing else of the item; for the
    identifier abc123 it is https://www.youtube.com/watch?v=abc123. *)
Theorem process_video_items_url items recs :
  _process_video_items (PList items) = Ok recs ->
  Forall2 (fun item rec =>
    exists video_id,
      nested_field item "id" "videoId" = Some video_id /\
      Py.getitem rec "video_url" =
        Ok (PStr ("https://www.youtube.com/watch?v=" +:+ py_str video_id)) /\
      (video_id = PStr "abc123" ->
       Py.getitem rec "video_url" =
         Ok (PStr "https://www.youtube.com/watch?v=abc123")))
    items recs.
Proof.
  rewrite process_video_items_list. intros HF.
  eapply Forall2_impl; [exact HF|]. intros item rec Hv. simpl in Hv.
  apply video_data_Ok in Hv as
    (vid & ti & de & pu & ch & th & df & tu & E1 & _ & _ & _ & _ & _ & _ & _ & ->).
  exists vid. split; [exact E1|].
  assert (Hurl : Py.getitem
            (PDict {[ "video_id" := vid; "title" := ti; "description" := de;
                      "published_at" := pu; "channel_title" := ch;
                      "thumbnail_url" := tu;
                      "video_url" :=
                        PStr ("https://www.youtube.com/watch?v=" +:+ py_str vid) ]})
            "video_url"
          = Ok (PStr ("https://www.youtube.com/watch?v=" +:+ py_str vid))).
  { unfold Py.getitem. by simplify_map_eq. }
  split; [exact Hurl|]. intros ->. exact Hurl.
Qed.

(** C6. An item of the documented shape whose thumbnails have no
    [default] entry, or whose [default] entry has no [url], is normalized,
    and the [thumbnail_url] of its record is the empty string. *)
Theorem process_video_items_missing_thumbnail item thumbnails :
  has_required_fields item = true ->
  thumbnails_of item = Some thumbnails ->
  thumbnails !! "default" = None \/
  (exists default, thumbnails !! "default" = Some (PDict default) /\
                   default !! "url" = None) ->
  exists rec,
    _process_video_items (PList [item]) = Ok [rec] /\
    Py.getitem rec "thumbnail_url" = Ok (PStr "").
Proof.
  intros Hreq Hth Hdef.
  apply has_required_fields_true in Hreq as
    (vid & ti & de & pu & ch & th & E1 & E2 & E3 & E4 & E5 & E6).
  unfold thumbnails_of in Hth. rewrite E6 in Hth.
  destruct th; try discriminate. injection Hth as ->.
  assert (Hget : exists default,
            Py.get (PDict thumbnails) "default" (PDict ∅) = Ok default /\
            Py.get default "url" (PStr "") = Ok (PStr "")).
  { simpl. destruct Hdef as [-> | (default & -> & Hurl)].
    - exists (PDict ∅). done.
    - exists (PDict default). simpl. by rewrite Hurl. }
  destruct Hget as (default & E7 & E8).
  eexists. rewrite process_video_items_one. split.
  - erewrite (proj2 (video_data_Ok item _)); [reflexivity|].
    exists vid, ti, de, pu, ch, (PDict thumbnails), default, (PStr "").
    repeat split; eassumption.
  - unfold Py.getitem. by simplify_map_eq.
Qed.

(** The [default] entry of the thumbnails, when there is one, is a
    mapping. *)
Lemma thumbnail_default_ok_get item thumbnails :
  thumbnail_default_ok item = true ->
  thumbnails_of item = Some thumbnails ->
  exists default thumbnail_url,
    Py.get (PDict thumbnails) "default" (PDict ∅) = Ok default /\
    Py.get default "url" (PStr "") = Ok thumbnail_url.
Proof.
  unfold thumbnail_default_ok. intros Hok Hth. rewrite Hth in Hok. simpl.
  destruct (thumbnails !! "default") as [[]|]; try discriminate.
  - destruct (d !! "url") as [u|] eqn:Hu.
    + exists (PDict d), u. simpl. by rewrite Hu.
    + exists (PDict d), (PStr ""). simpl. by rewrite Hu.
  - by exists (PDict ∅), (PStr "").
Qed.

(** C7, as the code has it. On the items whose thumbnails [default] entry,
    if there is one, is a mapping: an item is normalized exactly when it
    has the required fields, [snippet.thumbnails] being a mapping. An item
    without them makes [_process_video_items] raise: nothing stands in for
    a missing field. *)
Theorem process_video_items_total item :
  thumbnail_default_ok item = true ->
  (has_required_fields item = true /\ is_Some (thumbnails_of item) ->
   exists rec, _process_video_items (PList [item]) = Ok [rec]) /\
  (~ (has_required_fields item = true /\ is_Some (thumbnails_of item)) ->
   exists e, _process_video_items (PList [item]) = Raise e).
Proof.
  intros Hok. rewrite process_video_items_one. split.
  - intros [Hreq [th Hth]].
    destruct (thumbnail_default_ok_get _ _ Hok Hth) as (df & tu & E7 & E8).
    apply has_required_fields_true in Hreq as
      (vid & ti & de & pu & ch & th' & E1 & E2 & E3 & E4 & E5 & E6).
    assert (th' = PDict th) as ->.
    { unfold thumbnails_of in Hth. rewrite E6 in Hth.
      destruct th'; try discriminate. by injection Hth as ->. }
    eexists. erewrite (proj2 (video_data_Ok item _)); [reflexivity|].
    exists vid, ti, de, pu, ch, (PDict th), df, tu. repeat split; eassumption.
  - intros Hnot. destruct (video_data item) as [rec|e] eqn:Hv; [|eauto].
    exfalso. apply Hnot.
    apply video_data_Ok in Hv as
      (vid & ti & de & pu & ch & th & df & tu &
       E1 & E2 & E3 & E4 & E5 & E6 & E7 & _).
    split.
    + apply has_required_fields_true. exists vid, ti, de, pu, ch, th. done.
    + unfold thumbnails_of. rewrite E6.
      destruct th; try discriminate E7. eauto.
Qed.

End Normalizer.

(** ** One turn of the loop *)

Section LoopLemmas.
Context `{!PyRepr}.
Variable youtube : service.
Variable channel_id : string.
Variable max_results_per_page : Z.
Variables published_after published_before : string.

Abbreviation req :=
  (request_params channel_id max_results_per_page published_after published_before).
Abbreviation turn :=
  (iteration youtube channel_id max_results_per_page published_after published_before).
Abbreviation loop :=
  (while_true youtube channel_id max_results_per_page published_after published_before).

Abbreviation requested := (requested req).

Lemma page_of_Raise response e :
  page_of response = Raise e ->
  is_Exception e = true /\
  (Py.get response "items" (PList []) = Raise e \/
   exists items, Py.get response "items" (PList []) = Ok items /\
                 _process_video_items items = Raise e).
Proof.
  unfold page_of. 
  destruct (Py.get response "items" (PList [])) as [items|e'] eqn:Hi; simpl.
  - destruct (_process_video_items items) as [vs|e'] eqn:Hp; simpl.
    + destruct response; try discriminate Hi. simpl.
      destruct (d !! "nextPageToken"); discriminate.
    + intros [= <-]. split; [eauto using process_video_items_raise_Exception|].
      right. eauto.
  - intros [= <-]. split; [eauto using get_raise_Exception|]. by left.
Qed.

Lemma turn_request_raises s e :
  youtube (sent s) (req (next_page_token s)) = Raise e ->
  turn s = (requested s, if is_Exception e then Ok Break else Raise e).
Proof.
  intros Hy. unfold iteration, try_body, mbind, M_bind, modify, read, execute. simpl.
  rewrite Hy. unfold requested. destruct e; reflexivity.
Qed.

Lemma turn_page_raises s response e :
  youtube (sent s) (req (next_page_token s)) = Ok response ->
  page_of response = Raise e ->
  turn s = (requested s, Ok Break).
Proof.
  intros Hy Hp. apply page_of_Raise in Hp as [Hex Hp].
  unfold iteration, try_body, mbind, M_bind, modify, read, execute, lift. simpl.
  rewrite Hy.
  destruct Hp as [Hi | (items & Hi & Hp)]; rewrite Hi; [|rewrite Hp];
    unfold requested; rewrite Hex; destruct (is_HttpError e); reflexivity.
Qed.

Lemma turn_page s response vs tok :
  youtube (sent s) (req (next_page_token s)) = Ok response ->
  page_of response = Ok (vs, tok) ->
  turn s = (mk_frame (all_videos s ++ vs) tok (page_count s + 1)%nat
                     (sent s ++ [req (next_page_token s)]),
            Ok (if Py.truthy tok then Continue else Break)).
Proof.
  intros Hy Hp. unfold page_of in Hp.
  unfold iteration, try_body, mbind, M_bind, modify, read, execute, lift. simpl.
  rewrite Hy.
  destruct (Py.get response "items" (PList [])) as [items|] eqn:Hi; [|discriminate].
  simpl in Hp.
  destruct (_process_video_items items) as [vs'|] eqn:Hv; [|discriminate].
  simpl in Hp.
  destruct (Py.get response "nextPageToken" PNone) as [tok'|] eqn:Ht; [|discriminate].
  injection Hp as -> ->. destruct (Py.truthy tok); reflexivity.
Qed.


(** ** The loop *)

Lemma loop_break s s' fuel :
  turn s = (s', Ok Break) -> loop (S fuel) s = Some (s', Ok tt).
Proof. intros Ht. simpl. by rewrite Ht. Qed.

Lemma loop_continue s s' fuel :
  turn s = (s', Ok Continue) -> loop (S fuel) s = loop fuel s'.
Proof. intros Ht. simpl. by rewrite Ht. Qed.

(** The pages the service answers with a continuing cursor are run
    through, one turn each, and their records accumulated in order. *)
Lemma loop_answered hist tok vss hist' tok' :
  answered youtube req hist tok vss hist' tok' ->
  forall acc n fuel,
    loop (length vss + fuel) (mk_frame acc tok n hist) =
    loop fuel (mk_frame (acc ++ concat vss) tok' (n + length vss)%nat hist').
Proof.
  induction 1 as [hist tok|hist tok response vs tok' vss hist'' tok'' Hy Hp Ht _ IH];
    intros acc n fuel.
  - simpl. by rewrite app_nil_r, Nat.add_0_r.
  - change (length (vs :: vss) + fuel)%nat with (S (length vss + fuel)).
    erewrite loop_continue.
    2:{ erewrite turn_page by eassumption. simpl. rewrite Ht. reflexivity. }
    rewrite IH. simpl. rewrite <- app_assoc.
    do 2 f_equal. lia.
Qed.

Lemma request_failure_Exception e :
  request_failure e = true -> is_Exception e = true.
Proof. by destruct e. Qed.

(** Every turn issues one request, built from the cursor in hand, and the
    loop goes on only with a cursor that counts as true. *)
Lemma turn_sent s s' r :
  turn s = (s', r) ->
  sent s' = sent s ++ [req (next_page_token s)] /\
  (r = Ok Continue -> Py.truthy (next_page_token s') = true).
Proof.
  destruct (youtube (sent s) (req (next_page_token s))) as [response|e] eqn:Hy.
  - destruct (page_of response) as [[vs tok]|e] eqn:Hp.
    + rewrite (turn_page _ _ _ _ Hy Hp). intros [= <- <-]. simpl.
      split; [done|]. by destruct (Py.truthy tok).
    + rewrite (turn_page_raises _ _ _ Hy Hp). intros [= <- <-]. done.
  - rewrite (turn_request_raises _ _ Hy). intros [= <- <-].
    split; [done|]. by destruct (is_Exception e).
Qed.

Lemma loop_sent fuel s s' r :
  loop fuel s = Some (s', r) ->
  exists toks,
    sent s' = sent s ++ req (next_page_token s) :: (req <$> toks) /\
    Forall (fun t => Py.truthy t = true) toks.
Proof.
  revert s. induction fuel as [|fuel IH]; intros s; simpl; [discriminate|].
  destruct (turn s) as [s1 r1] eqn:Ht.
  apply turn_sent in Ht as [Hs Hc].
  destruct r1 as [[]|e].
  - intros Hl. apply IH in Hl as (toks & Hs' & HF).
    exists (next_page_token s1 :: toks). split.
    + rewrite Hs', Hs, <- app_assoc. done.
    + constructor; auto.
  - intros [= <- <-]. exists []. done.
  - intros [= <- <-]. exists []. done.
Qed.

Lemma request_params_pageToken tok :
  req tok !! "pageToken" = if Py.truthy tok then Some tok else None.
Proof.
  unfold request_params. destruct (Py.truthy tok).
  - apply lookup_insert_eq.
  - done.
Qed.

End LoopLemmas.

(** ** Properties of [fetch_videos] *)

Section FetchVideos.
Context `{!PyRepr}.
Variable youtube : service.
Variable clk : clock.
Variable channel_id : string.
Variable max_results_per_page : Z.
Variables published_after published_before : string.
Hypothesis window : _get_date_range clk = Ok (published_after, published_before).

Abbreviation req :=
  (request_params channel_id max_results_per_page published_after published_before).
Abbreviation turn :=
  (iteration youtube channel_id max_results_per_page published_after published_before).
Abbreviation loop :=
  (while_true youtube channel_id max_results_per_page published_after published_before).

Lemma fetch_videos_loop fuel :
  fetch_videos youtube clk channel_id max_results_per_page fuel =
  match loop fuel (mk_frame [] PNone 0%nat []) with
  | None => None
  | Some (s, Ok _) => Some (sent s, Ok (all_videos s))
  | Some (s, Raise e) => Some (sent s, Raise e)
  end.
Proof. unfold fetch_videos. by rewrite window. Qed.

(** After pages that carried a cursor, [fetch_videos] is in the turn that
    follows them, with their records accumulated. *)
Lemma fetch_videos_answered vss reqs tok fuel :
  answered youtube req [] PNone vss reqs tok ->
  fetch_videos youtube clk channel_id max_results_per_page (length vss + S fuel) =
  match turn (mk_frame (concat vss) tok (length vss) reqs) with
  | (s, Ok Break) => Some (sent s, Ok (all_videos s))
  | (s, Raise e) => Some (sent s, Raise e)
  | (s, Ok Continue) =>
      match loop fuel s with
      | None => None
      | Some (s', Ok _) => Some (sent s', Ok (all_videos s'))
      | Some (s', Raise e) => Some (sent s', Raise e)
      end
  end.
Proof.
  intros Ha. rewrite fetch_videos_loop.
  rewrite (loop_answered _ _ _ _ _ _ _ _ _ _ Ha). simpl.
  destruct (turn _) as [s [[]|e]]; reflexivity.
Qed.

(** C1. Whatever the channel id and the page size: when the request of
    page k fails, by an error the service reports or by a failure of the
    transport, after k-1 pages that each carried a cursor, [fetch_videos]
    ends with that request and returns the records of pages 1 to k-1; no
    exception leaves the call. *)
Theorem fetch_videos_request_failure vss reqs tok e fuel :
  answered youtube req [] PNone vss reqs tok ->
  youtube reqs (req tok) = Raise e ->
  request_failure e = true ->
  (length vss < fuel)%nat ->
  fetch_videos youtube clk channel_id max_results_per_page fuel =
    Some (reqs ++ [req tok], Ok (concat vss)).
Proof.
  intros Ha Hy He Hfuel.
  replace fuel with (length vss + S (fuel - S (length vss)))%nat by lia.
  rewrite (fetch_videos_answered _ _ _ _ Ha).
  erewrite turn_request_raises by exact Hy.
  by rewrite (request_failure_Exception _ He).
Qed.

(** X23. An exception that is not an [Exception], such as the interrupt of
    the user, is not caught: it leaves [fetch_videos], and the records
    accumulated are lost with it. *)
Lemma fetch_videos_interrupt vss reqs tok e fuel :
  answered youtube req [] PNone vss reqs tok ->
  youtube reqs (req tok) = Raise e ->
  is_Exception e = false ->
  (length vss < fuel)%nat ->
  fetch_videos youtube clk channel_id max_results_per_page fuel =
    Some (reqs ++ [req tok], Raise e).
Proof.
  intros Ha Hy He Hfuel.
  replace fuel with (length vss + S (fuel - S (length vss)))%nat by lia.
  rewrite (fetch_videos_answered _ _ _ _ Ha).
  erewrite turn_request_raises by exact Hy.
  by rewrite He.
Qed.

(** C5. A first response with zero items and no cursor: [fetch_videos]
    returns the empty list after this one request, and raises nothing. *)
Theorem fetch_videos_empty_channel d fuel :
  youtube [] (req PNone) = Ok (PDict d) ->
  d !! "items" = Some (PList []) ->
  d !! "nextPageToken" = None ->
  (0 < fuel)%nat ->
  fetch_videos youtube clk channel_id max_results_per_page fuel =
    Some ([req PNone], Ok []).
Proof.
  intros Hy Hi Ht Hfuel.
  destruct fuel as [|fuel]; [lia|].
  pose proof (fetch_videos_answered [] [] PNone fuel (answered_nil _ _ _ _)) as Hf.
  simpl in Hf. rewrite Hf.
  assert (Hp : page_of (PDict d) = Ok ([], PNone)).
  { unfold page_of. simpl. by rewrite Hi, Ht. }
  by rewrite (turn_page _ _ _ _ _ (mk_frame [] PNone 0%nat []) _ _ _ Hy Hp).
Qed.

(** C10. When an item of page k lacks a required field, after k-1 pages
    that each carried a cursor, [fetch_videos] returns the records of
    pages 1 to k-1 and nothing of page k, not even the records of the
    well-formed items that precede the bad one; no exception leaves the
    call. *)
Theorem fetch_videos_bad_item vss reqs tok d good bad rest fuel :
  answered youtube req [] PNone vss reqs tok ->
  youtube reqs (req tok) = Ok (PDict d) ->
  d !! "items" = Some (PList (good ++ bad :: rest)) ->
  Forall (fun item => is_Ok (video_data item) = true) good ->
  has_required_fields bad = false ->
  (length vss < fuel)%nat ->
  fetch_videos youtube clk channel_id max_results_per_page fuel =
    Some (reqs ++ [req tok], Ok (concat vss)).
Proof.
  intros Ha Hy Hi Hgood Hbad Hfuel.
  replace fuel with (length vss + S (fuel - S (length vss)))%nat by lia.
  rewrite (fetch_videos_answered _ _ _ _ Ha).
  destruct (video_data_lacking _ Hbad) as [e He].
  erewrite turn_page_raises; [reflexivity|exact Hy|].
  unfold page_of. simpl. rewrite Hi. simpl.
  unfold _process_video_items. simpl.
  by rewrite (for_item_Raise _ _ _ _ _ Hgood He).
Qed.

(** C2. Three responses with cursors t1, t2 and none: [fetch_videos]
    issues three requests, the first without a page token and the next
    ones with the cursor of the response before, and returns the records
    of the three pages, page after page, the items of a page in their
    order. *)
Theorem fetch_videos_three_pages d1 d2 d3 items1 items2 items3
    recs1 recs2 recs3 t1 t2 fuel :
  youtube [] (req PNone) = Ok (PDict d1) ->
  d1 !! "items" = Some (PList items1) ->
  d1 !! "nextPageToken" = Some t1 -> Py.truthy t1 = true ->
  youtube [req PNone] (req t1) = Ok (PDict d2) ->
  d2 !! "items" = Some (PList items2) ->
  d2 !! "nextPageToken" = Some t2 -> Py.truthy t2 = true ->
  youtube [req PNone; req t1] (req t2) = Ok (PDict d3) ->
  d3 !! "items" = Some (PList items3) ->
  d3 !! "nextPageToken" = None ->
  Forall2 (fun item rec => video_data item = Ok rec) items1 recs1 ->
  Forall2 (fun item rec => video_data item = Ok rec) items2 recs2 ->
  Forall2 (fun item rec => video_data item = Ok rec) items3 recs3 ->
  (3 <= fuel)%nat ->
  fetch_videos youtube clk channel_id max_results_per_page fuel =
    Some ([req PNone; req t1; req t2], Ok (recs1 ++ recs2 ++ recs3)) /\
  req PNone !! "pageToken" = None /\
  req t1 !! "pageToken" = Some t1 /\
  req t2 !! "pageToken" = Some t2.
Proof.
  intros Hy1 Hi1 Ht1 Htr1 Hy2 Hi2 Ht2 Htr2 Hy3 Hi3 Ht3 HF1 HF2 HF3 Hfuel.
  apply process_video_items_list in HF1, HF2, HF3.
  assert (Hp1 : page_of (PDict d1) = Ok (recs1, t1)).
  { unfold page_of. simpl. by rewrite Hi1, Ht1; simpl; rewrite HF1. }
  assert (Hp2 : page_of (PDict d2) = Ok (recs2, t2)).
  { unfold page_of. simpl. by rewrite Hi2, Ht2; simpl; rewrite HF2. }
  assert (Hp3 : page_of (PDict d3) = Ok (recs3, PNone)).
  { unfold page_of. simpl. by rewrite Hi3, Ht3; simpl; rewrite HF3. }
  split.
  - assert (Ha : answered youtube req [] PNone [recs1; recs2]
                   [req PNone; req t1] t2).
    { eapply answered_cons; [exact Hy1|exact Hp1|exact Htr1|].
      eapply answered_cons; [exact Hy2|exact Hp2|exact Htr2|].
      constructor. }
    replace fuel with (length [recs1; recs2] + S (fuel - 3))%nat by (simpl; lia).
    rewrite (fetch_videos_answered _ _ _ _ Ha).
    erewrite turn_page; [|exact Hy3|exact Hp3]. simpl.
    by rewrite app_nil_r, <- app_assoc.
  - unfold request_params. rewrite Htr1, Htr2. simpl.
    split; [done|]. split; apply lookup_insert_eq.
Qed.

(** C9. In any turn of the loop, a response without an [items] entry
    counts as a page of no items: nothing is appended and nothing is
    raised, and the loop goes on or ends by the cursor of the response
    alone. *)
Theorem loop_response_without_items s d fuel :
  youtube (sent s) (req (next_page_token s)) = Ok (PDict d) ->
  d !! "items" = None ->
  let token := default PNone (d !! "nextPageToken") in
  let s' := mk_frame (all_videos s) token (page_count s + 1)%nat
                     (sent s ++ [req (next_page_token s)]) in
  page_of (PDict d) = Ok ([], token) /\
  loop (S fuel) s =
    if Py.truthy token then loop fuel s' else Some (s', Ok tt).
Proof.
  intros Hy Hi token s'.
  assert (Hp : page_of (PDict d) = Ok ([], token)).
  { unfold page_of, token. simpl. rewrite Hi. simpl.
    by destruct (d !! "nextPageToken"). }
  split; [exact Hp|].
  simpl. rewrite (turn_page _ _ _ _ _ _ _ _ _ Hy Hp).
  rewrite app_nil_r. by destruct (Py.truthy token).
Qed.

(** In a run that ends, the first request has no page token and every
    later one carries a cursor that counts as true. *)
Lemma fetch_videos_sent fuel reqs r :
  fetch_videos youtube clk channel_id max_results_per_page fuel = Some (reqs, r) ->
  exists toks,
    reqs = req PNone :: (req <$> toks) /\
    Forall (fun t => Py.truthy t = true) toks.
Proof.
  rewrite fetch_videos_loop.
  destruct (loop fuel _) as [[s [u|e]]|] eqn:Hl; [| |discriminate];
    intros [= <- <-]; apply loop_sent in Hl as (toks & -> & HF); eauto.
Qed.

End FetchVideos.

Section EmptyCursor.
Context `{!PyRepr}.
Variables youtube youtube' : service.
Variable clk : clock.
Variable channel_id : string.
Variable max_results_per_page : Z.
Variables published_after published_before : string.
Hypothesis window : _get_date_range clk = Ok (published_after, published_before).

Abbreviation req :=
  (request_params channel_id max_results_per_page published_after published_before).

(** C8. A response whose cursor is the empty string ends the pagination
    as a response without cursor does: against a service that differs
    only in leaving the cursor out of that response, [fetch_videos] issues
    the same requests and returns the same list, ending with this page.
    No request of any run carries the empty string as page token: the
    first request carries none, and each later one a cursor that counts
    as true. *)
Theorem fetch_videos_empty_cursor vss reqs tok d fuel :
  answered youtube req [] PNone vss reqs tok ->
  answered youtube' req [] PNone vss reqs tok ->
  youtube reqs (req tok) = Ok (PDict d) ->
  d !! "nextPageToken" = Some (PStr "") ->
  youtube' reqs (req tok) = Ok (PDict (delete "nextPageToken" d)) ->
  (length vss < fuel)%nat ->
  (exists recs,
     fetch_videos youtube clk channel_id max_results_per_page fuel =
       Some (reqs ++ [req tok], Ok (concat vss ++ recs)) /\
     fetch_videos youtube' clk channel_id max_results_per_page fuel =
       Some (reqs ++ [req tok], Ok (concat vss ++ recs))) /\
  (forall y n sent_reqs r,
     fetch_videos y clk channel_id max_results_per_page n = Some (sent_reqs, r) ->
     exists toks,
       sent_reqs = req PNone :: (req <$> toks) /\
       req PNone !! "pageToken" = None /\
       Forall (fun t => req t !! "pageToken" = Some t /\ Py.truthy t = true /\
                        t <> PStr "") toks).
Proof.
  intros Ha Ha' Hy Ht Hy' Hfuel. split.
  - replace fuel with (length vss + S (fuel - S (length vss)))%nat by lia.
    rewrite (fetch_videos_answered _ _ _ _ _ _ window _ _ _ _ Ha).
    rewrite (fetch_videos_answered _ _ _ _ _ _ window _ _ _ _ Ha').
    set (items := default (PList []) (d !! "items")).
    assert (Hi : Py.get (PDict d) "items" (PList []) = Ok items).
    { unfold items. simpl. by destruct (d !! "items"). }
    assert (Hi' : Py.get (PDict (delete "nextPageToken" d)) "items" (PList [])
                  = Ok items).
    { unfold items. simpl. rewrite lookup_delete_ne by done.
      by destruct (d !! "items"). }
    destruct (_process_video_items items) as [recs|e] eqn:Hp.
    + exists recs.
      assert (Hp1 : page_of (PDict d) = Ok (recs, PStr "")).
      { unfold page_of. rewrite Hi. simpl. rewrite Hp. simpl. by rewrite Ht. }
      assert (Hp2 : page_of (PDict (delete "nextPageToken" d)) = Ok (recs, PNone)).
      { unfold page_of. rewrite Hi'. simpl. rewrite Hp. simpl.
        by rewrite lookup_delete_eq. }
      rewrite (turn_page _ _ _ _ _ (mk_frame _ _ _ _) _ _ _ Hy Hp1).
      rewrite (turn_page _ _ _ _ _ (mk_frame _ _ _ _) _ _ _ Hy' Hp2).
      done.
    + exists [].
      assert (Hp1 : page_of (PDict d) = Raise e).
      { unfold page_of. rewrite Hi. simpl. by rewrite Hp. }
      assert (Hp2 : page_of (PDict (delete "nextPageToken" d)) = Raise e).
      { unfold page_of. rewrite Hi'. simpl. by rewrite Hp. }
      rewrite (turn_page_raises _ _ _ _ _ (mk_frame _ _ _ _) _ _ Hy Hp1).
      rewrite (turn_page_raises _ _ _ _ _ (mk_frame _ _ _ _) _ _ Hy' Hp2).
      simpl. by rewrite app_nil_r.
  - intros y n sent_reqs r Hf.
    apply (fetch_videos_sent _ _ _ _ _ _ window) in Hf as (toks & -> & HF).
    exists toks. split; [done|]. split; [by rewrite request_params_pageToken|].
    eapply Forall_impl; [exact HF|]. intros t Htr. simpl in Htr.
    rewrite request_params_pageToken, Htr. split; [done|]. split; [done|].
    intros ->. discriminate.
Qed.

End EmptyCursor.

(** ** The window *)

(** What [_get_date_range] returns: the local date-time of the host and
    the date-time 365 days before it, each in the wire format. *)
Lemma get_date_range_Ok clk after before :
  _get_date_range clk = Ok (after, before) <->
  exists today one_year_ago,
    now clk = Ok today /\
    sub today (timedelta_of 365 0 0) = Ok one_year_ago /\
    after = strftime one_year_ago wire_format /\
    before = strftime today wire_format.
Proof.
  unfold _get_date_range, wire_format. split.
  - destruct (now clk) as [today|]; [|discriminate]. simpl.
    destruct (sub today (timedelta_of 365 0 0)) as [ago|] eqn:Hs;
      [|discriminate].
    simpl. intros [= <- <-]. exists today, ago. done.
  - intros (today & ago & -> & Hs & -> & ->). simpl. by rewrite Hs.
Qed.

(** The wire format: date and time of day to the second, and the letter Z
    whatever the zone the date-time was read in. *)
Lemma strftime_wire_format dt :
  strftime dt wire_format =
  zfill4 (year dt) +:+ "-" +:+ zfill2 (month dt) +:+ "-" +:+ zfill2 (day dt)
  +:+ "T" +:+ zfill2 (hour dt) +:+ ":" +:+ zfill2 (minute dt) +:+ ":"
  +:+ zfill2 (second dt) +:+ "Z".
Proof. reflexivity. Qed.

(** C3, at a host four hours west of UTC, at noon UTC of 2025-10-26: the
    window is the local time of day with the UTC marker appended, not the
    instant in UTC. *)
Theorem get_date_range_local_time :
  _get_date_range sample_clock =
    Ok ("2024-10-26T08:00:00Z", "2025-10-26T08:00:00Z") /\
  strftime (utc_now sample_clock) wire_format = "2025-10-26T12:00:00Z".
Proof. split; run. Qed.

(** ** The properties at sample inputs *)

Lemma sample_window :
  _get_date_range sample_clock =
    Ok ("2024-10-26T08:00:00Z", "2025-10-26T08:00:00Z").
Proof. run. Qed.

(** C7 as stated fails: an item with every required field and a
    thumbnails mapping, whose [default] entry is null, is not normalized. *)
Lemma process_video_items_null_default :
  has_required_fields (sample_item "abc123" {[ "default" := PNone ]}) = true /\
  thumbnails_of (sample_item "abc123" {[ "default" := PNone ]}) =
    Some {[ "default" := PNone ]} /\
  @_process_video_items sample_repr
    (PList [sample_item "abc123" {[ "default" := PNone ]}]) = Raise AttributeError.
Proof. repeat split; run. Qed.

(** The sample item with no thumbnail at all is normalized. *)
Lemma process_video_items_total_witness :
  exists rec,
    @_process_video_items sample_repr (PList [sample_item "abc123" ∅]) = Ok [rec].
Proof.
  refine (proj1 (@process_video_items_total sample_repr (sample_item "abc123" ∅) _) _).
  - run.
  - split; [run|]. exists ∅. run.
Defined.

(** The URL of the record of the sample item abc123. *)
Lemma process_video_items_url_witness :
  Forall2 (fun item rec =>
    exists video_id,
      nested_field item "id" "videoId" = Some video_id /\
      Py.getitem rec "video_url" =
        Ok (PStr ("https://www.youtube.com/watch?v=" +:+ @py_str sample_repr video_id)) /\
      (video_id = PStr "abc123" ->
       Py.getitem rec "video_url" =
         Ok (PStr "https://www.youtube.com/watch?v=abc123")))
    [sample_item "abc123" ∅] [sample_record "abc123" (PStr "")].
Proof.
  apply (@process_video_items_url sample_repr). run.
Defined.

(** A [default] thumbnail without [url] gives the empty string. *)
Lemma process_video_items_missing_thumbnail_witness :
  exists rec,
    @_process_video_items sample_repr
      (PList [sample_item "abc123" {[ "default" := PDict ∅ ]}]) = Ok [rec] /\
    Py.getitem rec "thumbnail_url" = Ok (PStr "").
Proof.
  apply (@process_video_items_missing_thumbnail sample_repr _
           {[ "default" := PDict ∅ ]}).
  - run.
  - run.
  - right. exists ∅. split; run.
Defined.

(** One page with a cursor, as the sample service answers the first
    request. *)
Lemma sample_answered script :
  answered (H := sample_repr)
    (mock_service
       (Ok (sample_page [sample_item "v1" ∅] (Some (PStr "t1"))) :: script))
    sample_request [] PNone
    [[sample_record "v1" (PStr "")]] [sample_request PNone] (PStr "t1").
Proof.
  eapply answered_cons; [reflexivity|run|reflexivity|apply answered_nil].
Qed.

(** A page with a cursor, then an HTTP 403: the first page is returned. *)
Lemma fetch_videos_request_failure_witness :
  @fetch_videos sample_repr
    (mock_service [Ok (sample_page [sample_item "v1" ∅] (Some (PStr "t1")));
                   Raise (HttpError 403)])
    sample_clock "UC-tE4p-L9f0-w1T1-v8a-qA" 50 5 =
  Some ([sample_request PNone; sample_request (PStr "t1")],
        Ok [sample_record "v1" (PStr "")]).
Proof.
  apply (@fetch_videos_request_failure sample_repr _ _ _ _ _ _ sample_window
           [[sample_record "v1" (PStr "")]] [sample_request PNone] (PStr "t1")
           (HttpError 403) 5).
  - apply sample_answered.
  - reflexivity.
  - reflexivity.
  - simpl. lia.
Defined.

(** A channel without videos: one request, the empty list. *)
Lemma fetch_videos_empty_channel_witness :
  @fetch_videos sample_repr (mock_service [Ok (sample_page [] None)])
    sample_clock "UC-tE4p-L9f0-w1T1-v8a-qA" 50 1 =
  Some ([sample_request PNone], Ok []).
Proof.
  apply (@fetch_videos_empty_channel sample_repr _ _ _ _ _ _ sample_window
           {[ "items" := PList [] ]} 1).
  - reflexivity.
  - run.
  - run.
  - lia.
Defined.

(** A second page with an item that has no [videoId]: the page is
    dropped whole, the first page is returned. *)
Lemma fetch_videos_bad_item_witness :
  @fetch_videos sample_repr
    (mock_service
       [Ok (sample_page [sample_item "v1" ∅] (Some (PStr "t1")));
        Ok (sample_page [sample_item "v2" ∅; sample_item_without_id;
                         sample_item "v3" ∅] (Some (PStr "t2")))])
    sample_clock "UC-tE4p-L9f0-w1T1-v8a-qA" 50 5 =
  Some ([sample_request PNone; sample_request (PStr "t1")],
        Ok [sample_record "v1" (PStr "")]).
Proof.
  apply (@fetch_videos_bad_item sample_repr _ _ _ _ _ _ sample_window
           [[sample_record "v1" (PStr "")]] [sample_request PNone] (PStr "t1")
           (<["nextPageToken" := PStr "t2"]>
              {[ "items" := PList [sample_item "v2" ∅; sample_item_without_id;
                                   sample_item "v3" ∅] ]})
           [sample_item "v2" ∅] sample_item_without_id [sample_item "v3" ∅] 5).
  - apply sample_answered.
  - reflexivity.
  - run.
  - constructor; [run|constructor].
  - run.
  - simpl. lia.
Defined.

(** Three pages, of two, one and two items. *)
Lemma fetch_videos_three_pages_witness :
  @fetch_videos sample_repr
    (mock_service
       [Ok (sample_page [sample_item "v1" ∅; sample_item "v2" ∅] (Some (PStr "t1")));
        Ok (sample_page [sample_item "v3" ∅] (Some (PStr "t2")));
        Ok (sample_page [sample_item "v4" ∅; sample_item "v5" ∅] None)])
    sample_clock "UC-tE4p-L9f0-w1T1-v8a-qA" 50 3 =
  Some ([sample_request PNone; sample_request (PStr "t1"); sample_request (PStr "t2")],
        Ok ([sample_record "v1" (PStr ""); sample_record "v2" (PStr "")] ++
            [sample_record "v3" (PStr "")] ++
            [sample_record "v4" (PStr ""); sample_record "v5" (PStr "")])) /\
  sample_request PNone !! "pageToken" = None /\
  sample_request (PStr "t1") !! "pageToken" = Some (PStr "t1") /\
  sample_request (PStr "t2") !! "pageToken" = Some (PStr "t2").
Proof.
  apply (@fetch_videos_three_pages sample_repr _ _ _ _ _ _ sample_window
           (<["nextPageToken" := PStr "t1"]>
              {[ "items" := PList [sample_item "v1" ∅; sample_item "v2" ∅] ]})
           (<["nextPageToken" := PStr "t2"]>
              {[ "items" := PList [sample_item "v3" ∅] ]})
           {[ "items" := PList [sample_item "v4" ∅; sample_item "v5" ∅] ]}
           [sample_item "v1" ∅; sample_item "v2" ∅]
           [sample_item "v3" ∅]
           [sample_item "v4" ∅; sample_item "v5" ∅]).
  - reflexivity.
  - run.
  - run.
  - reflexivity.
  - reflexivity.
  - run.
  - run.
  - reflexivity.
  - reflexivity.
  - run.
  - run.
  - repeat constructor; run.
  - repeat constructor; run.
  - repeat constructor; run.
  - lia.
Defined.

(** A first response with a cursor and no [items]: the loop goes on with
    nothing accumulated. *)
Lemma loop_response_without_items_witness :
  @page_of sample_repr (PDict {[ "nextPageToken" := PStr "t1" ]}) =
    Ok ([], PStr "t1") /\
  @while_true sample_repr
    (mock_service [Ok (PDict {[ "nextPageToken" := PStr "t1" ]})])
    "UC-tE4p-L9f0-w1T1-v8a-qA" 50 "2024-10-26T08:00:00Z" "2025-10-26T08:00:00Z"
    2 (mk_frame [] PNone 0 []) =
  @while_true sample_repr
    (mock_service [Ok (PDict {[ "nextPageToken" := PStr "t1" ]})])
    "UC-tE4p-L9f0-w1T1-v8a-qA" 50 "2024-10-26T08:00:00Z" "2025-10-26T08:00:00Z"
    1 (mk_frame [] (PStr "t1") 1 [sample_request PNone]).
Proof.
  exact (@loop_response_without_items sample_repr
           (mock_service [Ok (PDict {[ "nextPageToken" := PStr "t1" ]})])
           "UC-tE4p-L9f0-w1T1-v8a-qA" 50
           "2024-10-26T08:00:00Z" "2025-10-26T08:00:00Z"
           (mk_frame [] PNone 0 []) {[ "nextPageToken" := PStr "t1" ]} 1%nat
           eq_refl eq_refl).
Defined.

(** A second page whose cursor is the empty string, or is left out. *)
Lemma fetch_videos_empty_cursor_witness :
  exists recs,
    @fetch_videos sample_repr
      (mock_service
         [Ok (sample_page [sample_item "v1" ∅] (Some (PStr "t1")));
          Ok (sample_page [sample_item "v2" ∅] (Some (PStr "")))])
      sample_clock "UC-tE4p-L9f0-w1T1-v8a-qA" 50 5 =
    Some ([sample_request PNone] ++ [sample_request (PStr "t1")],
          Ok (concat [[sample_record "v1" (PStr "")]] ++ recs)) /\
    @fetch_videos sample_repr
      (mock_service
         [Ok (sample_page [sample_item "v1" ∅] (Some (PStr "t1")));
          Ok (sample_page [sample_item "v2" ∅] None)])
      sample_clock "UC-tE4p-L9f0-w1T1-v8a-qA" 50 5 =
    Some ([sample_request PNone] ++ [sample_request (PStr "t1")],
          Ok (concat [[sample_record "v1" (PStr "")]] ++ recs)).
Proof.
  refine (proj1 (@fetch_videos_empty_cursor sample_repr _ _ _ _ _ _ _ sample_window
           [[sample_record "v1" (PStr "")]] [sample_request PNone] (PStr "t1")
           (<["nextPageToken" := PStr ""]>
              {[ "items" := PList [sample_item "v2" ∅] ]}) 5 _ _ _ _ _ _)).
  - apply sample_answered.
  - apply sample_answered.
  - reflexivity.
  - run.
  - run.
  - simpl. lia.
Defined.

(** ** More on the normalizer *)

Section NormalizerRecords.
Context `{!PyRepr}.

Lemma process_video_items_iter items recs :
  _process_video_items items = Ok recs <->
  exists its,
    Py.iter items = Ok its /\
    Forall2 (fun item rec => video_data item = Ok rec) its recs.
Proof.
  unfold _process_video_items. destruct (Py.iter items) as [its|e]; simpl.
  - rewrite for_item_Ok. split.
    + intros (rs & HF & ->). eauto.
    + intros (its' & [= <-] & HF). eauto.
  - split; [discriminate|]. intros (its & Hi & _). discriminate.
Qed.

(** X1. Every record has the same seven keys, no more and no fewer,
    whatever the item held besides. *)
Theorem process_video_items_keys items recs :
  _process_video_items items = Ok recs ->
  Forall (fun rec => exists d, rec = PDict d /\ dom d = record_keys) recs.
Proof.
  rewrite process_video_items_iter. intros (its & _ & HF).
  induction HF as [|item rec its recs Hv _ IH]; constructor; [|exact IH].
  apply video_data_Ok in Hv as
    (vid & ti & de & pu & ch & th & df & tu & _ & _ & _ & _ & _ & _ & _ & _ & ->).
  eexists. split; [reflexivity|].
  unfold record_keys. rewrite !dom_insert_L, dom_singleton_L. set_solver.
Qed.

(** X2. The fields of a record are the values of the item, copied as they
    are and whatever their type: the five required fields, and as
    thumbnail the [url] of the default thumbnail, or the empty string when
    there is none. *)
Theorem process_video_items_fields items recs :
  _process_video_items (PList items) = Ok recs ->
  Forall2 (fun item rec =>
    record_field rec "video_id" = nested_field item "id" "videoId" /\
    record_field rec "title" = nested_field item "snippet" "title" /\
    record_field rec "description" = nested_field item "snippet" "description" /\
    record_field rec "published_at" = nested_field item "snippet" "publishedAt" /\
    record_field rec "channel_title" = nested_field item "snippet" "channelTitle" /\
    record_field rec "thumbnail_url" =
      Some (default (PStr "") (default_thumbnail_url item)))
    items recs.
Proof.
  rewrite process_video_items_list. intros HF.
  eapply Forall2_impl; [exact HF|]. intros item rec Hv. simpl in Hv.
  apply video_data_Ok in Hv as
    (vid & ti & de & pu & ch & th & df & tu &
     E1 & E2 & E3 & E4 & E5 & E6 & E7 & E8 & ->).
  rewrite E1, E2, E3, E4, E5. unfold record_field.
  repeat (split; [by simplify_map_eq|]).
  assert (tu = default (PStr "") (default_thumbnail_url item)) as <-;
    [|by simplify_map_eq].
  unfold default_thumbnail_url, thumbnails_of. rewrite E6.
  destruct th; try discriminate E7. simpl in E7.
  destruct (d !! "default") as [x|]; injection E7 as <-.
  - destruct x; try discriminate E8. simpl in E8.
    destruct (d0 !! "url"); by injection E8 as <-.
  - simpl in E8. rewrite lookup_empty in E8. by injection E8 as <-.
Qed.

Lemma for_item_acc items acc :
  for_item items acc =
  match for_item items [] with
  | Ok recs => Ok (acc ++ recs)
  | Raise e => Raise e
  end.
Proof.
  revert acc. induction items as [|item rest IH]; intros acc; simpl.
  - by rewrite app_nil_r.
  - destruct (video_data item) as [vd|e]; simpl; [|done].
    rewrite (IH (acc ++ [vd])), (IH [vd]).
    destruct (for_item rest []); [|done]. by rewrite <- app_assoc.
Qed.

Lemma for_item_app items1 items2 acc :
  for_item (items1 ++ items2) acc =
  match for_item items1 acc with
  | Ok recs1 => for_item items2 recs1
  | Raise e => Raise e
  end.
Proof.
  revert acc. induction items1 as [|item rest IH]; intros acc; simpl; [done|].
  destruct (video_data item); simpl; [apply IH|done].
Qed.

(** X3. Normalizing a list in two parts gives the records of the first
    part followed by those of the second; a part that fails makes the
    whole fail, the first part's exception taking precedence. *)
Theorem process_video_items_app items1 items2 :
  _process_video_items (PList (items1 ++ items2)) =
  match _process_video_items (PList items1) with
  | Ok recs1 =>
      match _process_video_items (PList items2) with
      | Ok recs2 => Ok (recs1 ++ recs2)
      | Raise e => Raise e
      end
  | Raise e => Raise e
  end.
Proof.
  unfold _process_video_items. simpl. rewrite for_item_app.
  destruct (for_item items1 []) as [recs1|e]; [|done].
  apply for_item_acc.
Qed.

(** X4. When [items] is not a list, no record comes of it: an empty string
    or an empty mapping counts as no items, and anything else raises
    [TypeError]. *)
Theorem process_video_items_not_a_list items :
  (forall l, items <> PList l) ->
  (items = PStr "" \/ items = PDict ∅ -> _process_video_items items = Ok []) /\
  (items <> PStr "" -> items <> PDict ∅ ->
   _process_video_items items = Raise TypeError).
Proof.
  intros Hnl. unfold _process_video_items. split.
  - intros [-> | ->]; [done|]. simpl. by rewrite map_to_list_empty.
  - intros Hs Hd. destruct items as [| | | |s|l|d]; simpl; try done.
    + destruct s as [|c s]; [done|]. reflexivity.
    + by destruct (Hnl l).
    + destruct (map_to_list d) as [|[k v] rest] eqn:Hl; simpl; [|done].
      apply map_to_list_empty_iff in Hl as ->. done.
Qed.

End NormalizerRecords.

(** ** More on [fetch_videos] *)

Section FetchVideosRuns.
Context `{!PyRepr}.
Variable youtube : service.
Variable clk : clock.
Variable channel_id : string.
Variable max_results_per_page : Z.
Variables published_after published_before : string.
Hypothesis window : _get_date_range clk = Ok (published_after, published_before).

Abbreviation req :=
  (request_params channel_id max_results_per_page published_after published_before).
Abbreviation turn :=
  (iteration youtube channel_id max_results_per_page published_after published_before).
Abbreviation loop :=
  (while_true youtube channel_id max_results_per_page published_after published_before).

(** A turn goes on, or is a last turn. *)
Lemma turn_cases acc tok n hist :
  (exists response vs tok',
     youtube hist (req tok) = Ok response /\
     page_of response = Ok (vs, tok') /\ Py.truthy tok' = true /\
     turn (mk_frame acc tok n hist) =
       (mk_frame (acc ++ vs) tok' (n + 1)%nat (hist ++ [req tok]), Ok Continue)) \/
  (exists vs r s',
     last_turn youtube req hist tok vs r /\
     turn (mk_frame acc tok n hist) =
       (s', match r with Ok _ => Ok Break | Raise e => Raise e end) /\
     all_videos s' = acc ++ vs /\ sent s' = hist ++ [req tok]).
Proof.
  destruct (youtube hist (req tok)) as [response|e] eqn:Hy.
  - destruct (page_of response) as [[vs tok']|e] eqn:Hp.
    + pose proof (turn_page youtube channel_id max_results_per_page
                    published_after published_before
                    (mk_frame acc tok n hist) _ _ _ Hy Hp) as Ht.
      simpl in Ht. destruct (Py.truthy tok') eqn:Htr.
      * left. exists response, vs, tok'. done.
      * right. eexists vs, (Ok tt), _. split; [|split; [exact Ht|done]].
        eapply last_turn_last_page; eassumption.
    + pose proof (turn_page_raises youtube channel_id max_results_per_page
                    published_after published_before
                    (mk_frame acc tok n hist) _ _ Hy Hp) as Ht.
      right. eexists [], (Ok tt), _. split; [|split; [exact Ht|]].
      * eapply last_turn_page_raises; eassumption.
      * simpl. by rewrite app_nil_r.
  - pose proof (turn_request_raises youtube channel_id max_results_per_page
                  published_after published_before
                  (mk_frame acc tok n hist) _ Hy) as Ht.
    right. destruct (is_Exception e) eqn:He.
    + eexists [], (Ok tt), _. split; [|split; [exact Ht|]].
      * eapply last_turn_caught; eassumption.
      * simpl. by rewrite app_nil_r.
    + eexists [], (Raise e), _. split; [|split; [exact Ht|]].
      * eapply last_turn_escapes; eassumption.
      * simpl. by rewrite app_nil_r.
Qed.

(** A loop that ends has run through pages with a cursor and then made a
    last turn. *)
Lemma loop_ends fuel acc tok n hist s' r :
  loop fuel (mk_frame acc tok n hist) = Some (s', r) ->
  exists vss reqs tok' vs,
    answered youtube req hist tok vss reqs tok' /\
    last_turn youtube req reqs tok' vs r /\
    all_videos s' = acc ++ concat vss ++ vs /\
    sent s' = reqs ++ [req tok'].
Proof.
  revert acc tok n hist.
  induction fuel as [|fuel IH]; intros acc tok n hist; simpl; [discriminate|].
  destruct (turn_cases acc tok n hist) as
    [(response & vs & tok' & Hy & Hp & Htr & ->)
    |(vs & r0 & s0 & Hl & -> & Hall & Hsent)].
  - intros Hloop. apply IH in Hloop as (vss & reqs & tok'' & vs' & Ha & Hl & Hall & Hs).
    exists (vs :: vss), reqs, tok'', vs'. split; [|split; [exact Hl|split; [|exact Hs]]].
    + eapply answered_cons; eassumption.
    + rewrite Hall. simpl. by rewrite <- !app_assoc.
  - destruct r0 as [[]|e]; intros [= <- <-];
      exists [], hist, tok, vs; (split; [constructor|done]).
Qed.

(** X5. What [fetch_videos] returns is always made of whole pages: the
    records of the pages that carried a cursor, in the order fetched, and
    after them the records of the last page if it was processed; the
    requests issued are one per page, plus the one that ended the loop. *)
Theorem fetch_videos_returns_pages fuel reqs recs :
  fetch_videos youtube clk channel_id max_results_per_page fuel =
    Some (reqs, Ok recs) ->
  exists vss reqs0 tok vs,
    answered youtube req [] PNone vss reqs0 tok /\
    last_turn youtube req reqs0 tok vs (Ok tt) /\
    recs = concat vss ++ vs /\
    reqs = reqs0 ++ [req tok] /\
    length reqs = S (length vss).
Proof.
  unfold fetch_videos. rewrite window.
  destruct (while_true _ _ _ _ _ _ _) as [[s [[]|e]]|] eqn:Hloop; try discriminate.
  intros [= <- <-].
  apply loop_ends in Hloop as (vss & reqs0 & tok & vs & Ha & Hl & Hall & Hs).
  exists vss, reqs0, tok, vs. repeat split; try done.
  rewrite Hs, length_app. simpl.
  assert (Hlen : forall h t v h' t', answered youtube req h t v h' t' ->
                                      length h' = (length h + length v)%nat).
  { clear. induction 1 as [|? ? ? ? ? ? ? ? _ _ _ _ IH]; simpl; [lia|].
    rewrite IH, length_app. simpl. lia. }
  rewrite (Hlen _ _ _ _ _ Ha). simpl. lia.
Qed.


(** X7. There is no bound on the number of pages: against a service that
    answers every request with a page and a cursor, the loop never
    ends. *)
Theorem fetch_videos_never_ends fuel :
  (forall hist tok, exists response vs tok',
     youtube hist (req tok) = Ok response /\
     page_of response = Ok (vs, tok') /\ Py.truthy tok' = true) ->
  fetch_videos youtube clk channel_id max_results_per_page fuel = None.
Proof.
  intros Hall. unfold fetch_videos. rewrite window.
  assert (Hloop : forall s, loop fuel s = None).
  { induction fuel as [|n IH]; intros s; simpl; [done|].
    destruct (Hall (sent s) (next_page_token s)) as (response & vs & tok' & Hy & Hp & Htr).
    rewrite (turn_page _ _ _ _ _ _ _ _ _ Hy Hp), Htr. apply IH. }
  by rewrite Hloop.
Qed.

(** X8. Every request of a run carries the same fixed filters, the channel
    and the window computed at the start, and the page size as it was
    given, whatever its value; besides these the only entry is the page
    token. *)
Theorem fetch_videos_request_filters fuel reqs r :
  fetch_videos youtube clk channel_id max_results_per_page fuel = Some (reqs, r) ->
  reqs <> [] /\
  Forall (fun q : gmap string pyval =>
    q !! "part" = Some (PStr "snippet") /\
    q !! "channelId" = Some (PStr channel_id) /\
    q !! "publishedAfter" = Some (PStr published_after) /\
    q !! "publishedBefore" = Some (PStr published_before) /\
    q !! "videoDuration" = Some (PStr "short") /\
    q !! "type" = Some (PStr "video") /\
    q !! "maxResults" = Some (PInt max_results_per_page) /\
    q !! "order" = Some (PStr "date") /\
    dom q ⊆ {[ "part"; "channelId"; "publishedAfter"; "publishedBefore";
               "videoDuration"; "type"; "maxResults"; "order"; "pageToken" ]})
    reqs.
Proof.
  intros Hf.
  apply (fetch_videos_sent _ _ _ _ _ _ window) in Hf as (toks & -> & _).
  split; [done|].
  assert (Hreq : forall tok,
    (fun q : gmap string pyval =>
    q !! "part" = Some (PStr "snippet") /\
    q !! "channelId" = Some (PStr channel_id) /\
    q !! "publishedAfter" = Some (PStr published_after) /\
    q !! "publishedBefore" = Some (PStr published_before) /\
    q !! "videoDuration" = Some (PStr "short") /\
    q !! "type" = Some (PStr "video") /\
    q !! "maxResults" = Some (PInt max_results_per_page) /\
    q !! "order" = Some (PStr "date") /\
    dom q ⊆ {[ "part"; "channelId"; "publishedAfter"; "publishedBefore";
               "videoDuration"; "type"; "maxResults"; "order"; "pageToken" ]})
    (req tok)).
  { intros tok. unfold request_params.
    destruct (Py.truthy tok); repeat (split; [by simplify_map_eq|]);
      rewrite ?dom_insert_L, dom_singleton_L; set_unfold; tauto. }
  constructor; [apply Hreq|].
  apply Forall_fmap, Forall_forall. intros tok _. apply Hreq.
Qed.

(** X9. A response that is not a mapping (a list, a string, null) ends the
    pagination like a failed request: the records of the pages before it
    are returned, and nothing is raised. *)
Theorem fetch_videos_response_not_a_mapping vss reqs tok response fuel :
  answered youtube req [] PNone vss reqs tok ->
  youtube reqs (req tok) = Ok response ->
  (forall d, response <> PDict d) ->
  (length vss < fuel)%nat ->
  fetch_videos youtube clk channel_id max_results_per_page fuel =
    Some (reqs ++ [req tok], Ok (concat vss)).
Proof.
  intros Ha Hy Hnd Hfuel.
  replace fuel with (length vss + S (fuel - S (length vss)))%nat by lia.
  rewrite (fetch_videos_answered _ _ _ _ _ _ window _ _ _ _ Ha).
  assert (Hp : page_of response = Raise AttributeError).
  { destruct response; try reflexivity. by destruct (Hnd d). }
  by rewrite (turn_page_raises _ _ _ _ _ (mk_frame _ _ _ _) _ _ Hy Hp).
Qed.

End FetchVideosRuns.

(** ** The summary *)

Section SummaryLemmas.
Context `{!PyRepr}.

Lemma has_summary_fields_true video :
  has_summary_fields video = true ->
  exists title video_id published_at video_url,
    Py.getitem video "title" = Ok title /\
    Py.getitem video "video_id" = Ok video_id /\
    Py.getitem video "published_at" = Ok published_at /\
    Py.getitem video "video_url" = Ok video_url.
Proof.
  unfold has_summary_fields.
  destruct (Py.getitem video "title") as [t|]; [|done].
  destruct (Py.getitem video "video_id") as [v|]; [|done].
  destruct (Py.getitem video "published_at") as [p|]; [|done].
  destruct (Py.getitem video "video_url") as [u|]; [|done].
  intros _. by exists t, v, p, u.
Qed.

Lemma print_entry_fields i video title video_id published_at video_url :
  Py.getitem video "title" = Ok title ->
  Py.getitem video "video_id" = Ok video_id ->
  Py.getitem video "published_at" = Ok published_at ->
  Py.getitem video "video_url" = Ok video_url ->
  print_entry i video =
    ([ nl +:+ format_3d i +:+ ". " +:+ py_str title;
       "     Video ID: " +:+ py_str video_id;
       "     Published: " +:+ py_str published_at;
       "     URL: " +:+ py_str video_url ], Ok tt).
Proof.
  intros H1 H2 H3 H4. unfold print_entry. rewrite H1, H2, H3, H4. reflexivity.
Qed.

(** The entries of videos that have the four fields shown: four lines
    each, numbered from [i] on. *)
Lemma for_video_fields i videos :
  Forall (fun video => has_summary_fields video = true) videos ->
  exists lines,
    for_video i videos = (lines, Ok tt) /\
    length lines = (4 * length videos)%nat /\
    forall n video title video_url,
      videos !! n = Some video ->
      Py.getitem video "title" = Ok title ->
      Py.getitem video "video_url" = Ok video_url ->
      lines !! (4 * n)%nat =
        Some (nl +:+ format_3d (i + n) +:+ ". " +:+ py_str title) /\
      lines !! (4 * n + 3)%nat = Some ("     URL: " +:+ py_str video_url).
Proof.
  intros HF. revert i.
  induction HF as [|video rest Hfields _ IH]; intros i.
  - exists []. split; [done|]. split; [done|]. intros n ? ? ? Hn. done.
  - apply has_summary_fields_true in Hfields as (t & v & p & u & E1 & E2 & E3 & E4).
    destruct (IH (S i)) as (lines & Hfor & Hlen & Hat).
    eexists. split; [|split].
    + simpl. rewrite (print_entry_fields _ _ _ _ _ _ E1 E2 E3 E4).
      unfold mbind, P_bind. rewrite Hfor. reflexivity.
    + simpl. rewrite Hlen. lia.
    + intros n video' title video_url Hn Ht Hu. destruct n as [|n].
      * injection Hn as <-. rewrite E1 in Ht. rewrite E4 in Hu.
        injection Ht as <-. injection Hu as <-.
        rewrite Nat.add_0_r. done.
      * simpl in Hn. destruct (Hat n _ _ _ Hn Ht Hu) as [Ha Hb].
        replace (4 * S n)%nat with (S (S (S (S (4 * n))))) by lia.
        replace (S (S (S (S (4 * n)))) + 3)%nat
          with (S (S (S (S (4 * n + 3))))) by lia.
        replace (i + S n)%nat with (S i + n)%nat by lia.
        simpl. done.
Qed.

(** A normalized record has the fields the summary shows. *)
Lemma video_data_summary_fields item rec :
  video_data item = Ok rec ->
  exists video_id title published_at,
    nested_field item "id" "videoId" = Some video_id /\
    nested_field item "snippet" "title" = Some title /\
    Py.getitem rec "title" = Ok title /\
    Py.getitem rec "video_id" = Ok video_id /\
    Py.getitem rec "published_at" = Ok published_at /\
    Py.getitem rec "video_url" =
      Ok (PStr ("https://www.youtube.com/watch?v=" +:+ py_str video_id)).
Proof.
  intros Hv. apply video_data_Ok in Hv as
    (vid & ti & de & pu & ch & th & df & tu & E1 & E2 & _ & _ & _ & _ & _ & _ & ->).
  exists vid, ti, pu. unfold Py.getitem. repeat split; try done; by simplify_map_eq.
Qed.

Lemma Forall2_video_data_summary items recs :
  Forall2 (fun item rec => video_data item = Ok rec) items recs ->
  Forall (fun video => has_summary_fields video = true) recs.
Proof.
  induction 1 as [|item rec items recs Hv _ IH]; constructor; [|exact IH].
  apply video_data_summary_fields in Hv as
    (vid & ti & pu & _ & _ & H1 & H2 & H3 & H4).
  unfold has_summary_fields. by rewrite H1, H2, H3, H4.
Qed.

(** X10. The summary of the records of a list of items never fails: it
    prints a heading of three lines, four lines for each video and a
    closing line, or the one line No videos found; the entry numbered n
    shows the title of the n-th item and the watch URL of its
    identifier. *)
Theorem print_video_summary_of_records items recs :
  _process_video_items (PList items) = Ok recs ->
  exists lines,
    print_video_summary recs = (lines, Ok tt) /\
    length lines = (if decide (recs = []) then 1 else 4 + 4 * length items)%nat /\
    forall n item video_id title,
      items !! n = Some item ->
      nested_field item "id" "videoId" = Some video_id ->
      nested_field item "snippet" "title" = Some title ->
      lines !! (3 + 4 * n)%nat =
        Some (nl +:+ format_3d (S n) +:+ ". " +:+ py_str title) /\
      lines !! (3 + 4 * n + 3)%nat =
        Some ("     URL: https://www.youtube.com/watch?v=" +:+ py_str video_id).
Proof.
  rewrite process_video_items_list. intros HF.
  pose proof (Forall2_length _ _ _ HF) as Hlen.
  destruct recs as [|rec recs].
  - destruct items; [|done]. exists ["No videos found."].
    split; [done|]. split; [done|]. intros n ? ? ? Hn. done.
  - destruct (for_video_fields 1 (rec :: recs) (Forall2_video_data_summary _ _ HF))
      as (lines & Hfor & Hl & Hat).
    exists ([nl +:+ str_mul "=" 80; "VIDEO SUMMARY"; str_mul "=" 80] ++ lines
            ++ [nl +:+ str_mul "=" 80]).
    split; [|split].
    + unfold print_video_summary, mbind, P_bind, print. rewrite Hfor. reflexivity.
    + rewrite decide_False by done. rewrite !length_app, Hl, Hlen. simpl. lia.
    + intros n item vid title Hn Hvid Htitle.
      destruct (Forall2_lookup_l _ _ _ _ _ HF Hn) as (r & Hr & Hv).
      apply video_data_summary_fields in Hv as
        (vid' & ti' & pu & E1 & E2 & G1 & G2 & G3 & G4).
      rewrite Hvid in E1. rewrite Htitle in E2.
      injection E1 as <-. injection E2 as <-.
      destruct (Hat n r title _ Hr G1 G4) as [Ha Hb].
      assert (Hn4 : (4 * n + 3 < length lines)%nat).
      { rewrite Hl. apply lookup_lt_Some in Hr. lia. }
      split.
      * change (3 + 4 * n)%nat with (S (S (S (4 * n)))). simpl.
        rewrite lookup_app_l by lia. exact Ha.
      * replace (3 + 4 * n + 3)%nat with (S (S (S (4 * n + 3)))) by lia. simpl.
        rewrite lookup_app_l by lia. exact Hb.
Qed.

(** X11. A video without [title] stops the summary with [KeyError]: the
    heading and the entries of the videos before it are printed, nothing
    of the video itself or after it. *)
Theorem print_video_summary_missing_title good d rest :
  Forall (fun video => has_summary_fields video = true) good ->
  d !! "title" = None ->
  exists lines,
    print_video_summary (good ++ PDict d :: rest) =
      (lines, Raise (KeyError "title")) /\
    length lines = (3 + 4 * length good)%nat.
Proof.
  intros HF Hd.
  assert (Hfor : forall i, exists lines,
    for_video i (good ++ PDict d :: rest) = (lines, Raise (KeyError "title")) /\
    length lines = (4 * length good)%nat).
  { induction HF as [|video good' Hfields _ IH]; intros i.
    - exists []. simpl. unfold print_entry. simpl. rewrite Hd. done.
    - apply has_summary_fields_true in Hfields as (t & v & p & u & E1 & E2 & E3 & E4).
      destruct (IH (S i)) as (lines & Hl & Hlen).
      eexists. split.
      + simpl. rewrite (print_entry_fields _ _ _ _ _ _ E1 E2 E3 E4).
        unfold mbind, P_bind. rewrite Hl. reflexivity.
      + simpl. rewrite Hlen. lia. }
  destruct (Hfor 1%nat) as (lines & Hl & Hlen).
  exists ([nl +:+ str_mul "=" 80; "VIDEO SUMMARY"; str_mul "=" 80] ++ lines).
  split.
  - unfold print_video_summary, mbind, P_bind, print.
    destruct (good ++ PDict d :: rest) eqn:Happ; [by destruct good|].
    rewrite Hl. reflexivity.
  - rewrite length_app, Hlen. simpl. lia.
Qed.

End SummaryLemmas.

(** ** The program *)

Set Warnings "-clear-no-such-hyp".

Section MainLemmas.
Context `{!PyRepr}.

Lemma page_of_summary_fields response vs tok :
  page_of response = Ok (vs, tok) ->
  Forall (fun video => has_summary_fields video = true) vs.
Proof.
  unfold page_of.
  destruct (Py.get response "items" (PList [])) as [items|]; [|discriminate].
  simpl. destruct (_process_video_items items) as [recs|] eqn:Hp; [|discriminate].
  simpl. destruct (Py.get response "nextPageToken" PNone); [|discriminate].
  intros [= <- <-].
  apply process_video_items_iter in Hp as (its & _ & HF).
  eapply Forall2_video_data_summary, HF.
Qed.

Lemma answered_summary_fields youtube req hist tok vss hist' tok' :
  answered youtube req hist tok vss hist' tok' ->
  Forall (fun video => has_summary_fields video = true) (concat vss).
Proof.
  induction 1 as [|? ? ? ? ? ? ? ? _ Hp _ _ IH]; simpl; [constructor|].
  apply Forall_app. split; [|exact IH]. eapply page_of_summary_fields, Hp.
Qed.

(** Every record [fetch_videos] returns has the fields the summary
    shows. *)
Lemma fetch_videos_summary_fields youtube clk channel_id n fuel reqs vs :
  fetch_videos youtube clk channel_id n fuel = Some (reqs, Ok vs) ->
  Forall (fun video => has_summary_fields video = true) vs.
Proof.
  unfold fetch_videos.
  destruct (_get_date_range clk) as [[pa pb]|]; [|discriminate].
  destruct (while_true _ _ _ _ _ _ _) as [[s [[]|e]]|] eqn:Hloop; try discriminate.
  intros [= <- <-].
  apply loop_ends in Hloop as (vss & reqs0 & tok & vs & Ha & Hl & -> & _).
  simpl. apply Forall_app. split; [eapply answered_summary_fields, Ha|].
  inversion Hl; subst; try constructor. eapply page_of_summary_fields; eassumption.
Qed.

Lemma print_video_summary_fields videos :
  Forall (fun video => has_summary_fields video = true) videos ->
  exists lines, print_video_summary videos = (lines, Ok tt).
Proof.
  intros HF. destruct videos as [|v vs]; [by eexists|].
  destruct (for_video_fields 1 _ HF) as (lines & Hfor & _).
  eexists. unfold print_video_summary, mbind, P_bind, print. rewrite Hfor.
  reflexivity.
Qed.

(** The window fails in one way only. *)
Lemma get_date_range_raises clk e :
  _get_date_range clk = Raise e -> e = OverflowError.
Proof.
  unfold _get_date_range, now, sub, add.
  repeat (match goal with
          | |- context [if ?b then _ else _] => destruct b
          | |- context [let '(_, _) := ?p in _] => destruct p as [[? ?] ?]
          end; simpl); try discriminate; congruence.
Qed.

(** What [fetch_videos] makes of a request that raises, after pages that
    carried a cursor. *)
Lemma fetch_videos_request_raises youtube clk channel_id n pa pb vss reqs tok e fuel :
  _get_date_range clk = Ok (pa, pb) ->
  answered youtube (request_params channel_id n pa pb) [] PNone vss reqs tok ->
  youtube reqs (request_params channel_id n pa pb tok) = Raise e ->
  (length vss < fuel)%nat ->
  fetch_videos youtube clk channel_id n fuel =
    Some (reqs ++ [request_params channel_id n pa pb tok],
          if is_Exception e then Ok (concat vss) else Raise e).
Proof.
  intros Hw Ha Hy Hfuel.
  replace fuel with (length vss + S (fuel - S (length vss)))%nat by lia.
  rewrite (fetch_videos_answered _ _ _ _ _ _ Hw _ _ _ _ Ha).
  erewrite turn_request_raises by exact Hy.
  by destruct (is_Exception e).
Qed.

End MainLemmas.

Section MainProperties.
Context `{!PyRepr}.
Variable h : host.

(** X12. Without a key in the environment and with nothing entered at the
    prompt, [main] leaves with status 1 after the prompt: no client is
    built and no request issued. *)
Theorem main_no_api_key fuel :
  env_api_key h = None \/ env_api_key h = Some "" ->
  prompt_api_key h = Ok "" ->
  main h fuel = Some ([Prompt], Exited 1).
Proof.
  intros Henv Hp. unfold main, get_api_key. rewrite Hp.
  by destruct Henv as [-> | ->].
Qed.

(** X13. The client is never built with an empty key; the key it is built
    with is that of the environment, or when the environment has none the
    one entered at the prompt, and the user is prompted only then. *)
Theorem main_api_key fuel events e :
  main h fuel = Some (events, e) ->
  forall api_key, Build api_key ∈ events ->
    api_key <> "" /\
    ((env_api_key h = Some api_key /\ Prompt ∉ events) \/
     ((env_api_key h = None \/ env_api_key h = Some "") /\
      prompt_api_key h = Ok api_key)).
Proof.
  unfold main. destruct (get_api_key h) as [asked [e0|key]] eqn:Hkey.
  - intros [= <- <-] k Hin. exfalso. unfold get_api_key in Hkey.
    destruct (env_api_key h) as [k0|]; [destruct (String.eqb k0 "")|];
      try (destruct (prompt_api_key h) as [k1|]; [destruct (String.eqb k1 "")|]);
      simplify_eq; set_unfold; naive_solver.
  - destruct (try_main h key fuel) as [[done e1]|] eqn:Htry; [|discriminate].
    intros [= <- <-] k Hin.
    assert (Hdone : Build k ∈ done -> k = key /\ Prompt ∉ done).
    { clear Hin. unfold try_main in Htry.
      destruct (_initialize_client (build h) key) as [[]|youtube].
      - injection Htry as <- <-. set_unfold. naive_solver.
      - injection Htry as <- <-. set_unfold. naive_solver.
      - destruct (fetch_videos _ _ _ _ _) as [[reqs [[|v vs]|e2]]|];
          try discriminate.
        + injection Htry as <- <-. set_unfold. naive_solver.
        + destruct (print_video_summary (v :: vs)) as [lines [[]|e2]].
          * destruct (save_to_json _ _ _); injection Htry as <- <-;
              set_unfold; naive_solver.
          * injection Htry as <- <-. set_unfold. naive_solver.
        + injection Htry as <- <-. set_unfold. naive_solver. }
    unfold get_api_key in Hkey.
    destruct (env_api_key h) as [k0|] eqn:Henv;
      [destruct (String.eqb k0 "") eqn:Hk0|].
    + apply String.eqb_eq in Hk0 as ->.
      destruct (prompt_api_key h) as [k1|]; [|discriminate].
      destruct (String.eqb k1 "") eqn:Hk1; [discriminate|].
      injection Hkey as <- <-. apply String.eqb_neq in Hk1.
      apply elem_of_cons in Hin as [?|Hin]; [done|].
      apply Hdone in Hin as [-> _]. split; [done|]. right. split; [by right|done].
    + injection Hkey as <- <-. apply String.eqb_neq in Hk0. simpl in *.
      destruct (Hdone Hin) as [-> Hnp]. split; [done|]. by left.
    + destruct (prompt_api_key h) as [k1|]; [|discriminate].
      destruct (String.eqb k1 "") eqn:Hk1; [discriminate|].
      injection Hkey as <- <-. apply String.eqb_neq in Hk1.
      apply elem_of_cons in Hin as [?|Hin]; [done|].
      apply Hdone in Hin as [-> _]. split; [done|]. right. split; [by left|done].
Qed.

(** X14. [main] saves only what [fetch_videos] returned, only when it is
    not empty, and under the name youtube_videos.json. *)
Theorem main_saves_what_was_fetched fuel events e :
  main h fuel = Some (events, e) ->
  forall filename videos, Save filename videos ∈ events ->
    filename = "youtube_videos.json" /\ videos <> [] /\
    exists api_key youtube reqs,
      build h api_key = Ok youtube /\
      fetch_videos youtube (host_clock h) CHANNEL_ID 50 fuel =
        Some (reqs, Ok videos).
Proof.
  unfold main. destruct (get_api_key h) as [asked [e0|key]] eqn:Hkey.
  - intros [= <- <-] f vs Hin. exfalso. unfold get_api_key in Hkey.
    destruct (env_api_key h) as [k0|]; [destruct (String.eqb k0 "")|];
      try (destruct (prompt_api_key h) as [k1|]; [destruct (String.eqb k1 "")|]);
      simplify_eq; set_unfold; naive_solver.
  - destruct (try_main h key fuel) as [[done e1]|] eqn:Htry; [|discriminate].
    intros [= <- <-] f vs Hin.
    assert (Hasked : Save f vs ∉ asked).
    { unfold get_api_key in Hkey.
      destruct (env_api_key h) as [k0|]; [destruct (String.eqb k0 "")|];
        try (destruct (prompt_api_key h) as [k1|]; [destruct (String.eqb k1 "")|]);
        simplify_eq; set_unfold; naive_solver. }
    apply elem_of_app in Hin as [?|Hin]; [done|]. clear Hasked Hkey.
    unfold try_main, _initialize_client in Htry.
    destruct (build h key) as [youtube|e2] eqn:Hb.
    + destruct (fetch_videos _ _ _ _ _) as [[reqs [[|v vs']|e2]]|] eqn:Hf;
        try discriminate.
      * injection Htry as <- <-. set_unfold. naive_solver.
      * destruct (print_video_summary (v :: vs')) as [lines [[]|e2]].
        -- assert (Hin' : Save f vs ∈ Build key :: (Request <$> reqs) ++
                     [Summary lines; Save "youtube_videos.json" (v :: vs')]).
           { destruct (save_to_json _ _ _); by injection Htry as <- <-. }
           assert (f = "youtube_videos.json" /\ vs = v :: vs') as [-> ->].
           { set_unfold. naive_solver. }
           split; [done|]. split; [done|]. eauto.
        -- injection Htry as <- <-. set_unfold. naive_solver.
      * injection Htry as <- <-. set_unfold. naive_solver.
    + destruct (is_Exception e2); injection Htry as <- <-; set_unfold; naive_solver.
Qed.

(** X15. When [fetch_videos] returns a list that is not empty, [main]
    prints its summary, which does not fail, saves the list and returns;
    a write that fails with an [Exception] changes nothing to that. *)
Theorem main_fetched_videos_saved fuel asked api_key youtube reqs videos :
  get_api_key h = (asked, inr api_key) ->
  build h api_key = Ok youtube ->
  fetch_videos youtube (host_clock h) CHANNEL_ID 50 fuel = Some (reqs, Ok videos) ->
  videos <> [] ->
  (forall e, write_file h "youtube_videos.json" videos = Raise e ->
             is_Exception e = true) ->
  exists lines,
    print_video_summary videos = (lines, Ok tt) /\
    main h fuel =
      Some (asked ++ Build api_key :: (Request <$> reqs) ++
              [Summary lines; Save "youtube_videos.json" videos],
            Returned).
Proof.
  intros Hkey Hb Hf Hne Hw.
  destruct (print_video_summary_fields videos) as [lines Hs];
    [eapply fetch_videos_summary_fields, Hf|].
  exists lines. split; [exact Hs|].
  unfold main, try_main, _initialize_client. rewrite Hkey, Hb, Hf.
  destruct videos as [|v vs]; [done|]. rewrite Hs.
  unfold save_to_json.
  destruct (write_file h "youtube_videos.json" (v :: vs)) as [[]|e] eqn:Hwf; [done|].
  by rewrite (Hw e).
Qed.

(** X16. A first request that fails looks to [main] like a channel
    without videos: nothing is saved and [main] returns, as after a run
    without error. *)
Theorem main_first_request_fails fuel asked api_key youtube after before e :
  get_api_key h = (asked, inr api_key) ->
  build h api_key = Ok youtube ->
  _get_date_range (host_clock h) = Ok (after, before) ->
  youtube [] (request_params CHANNEL_ID 50 after before PNone) = Raise e ->
  is_Exception e = true ->
  (0 < fuel)%nat ->
  main h fuel =
    Some (asked ++ [Build api_key;
                    Request (request_params CHANNEL_ID 50 after before PNone)],
          Returned).
Proof.
  intros Hkey Hb Hw Hy He Hfuel.
  unfold main, try_main, _initialize_client. rewrite Hkey, Hb.
  rewrite (fetch_videos_request_raises _ _ _ _ _ _ [] [] PNone e fuel Hw
             (answered_nil _ _ _ _) Hy Hfuel).
  by rewrite He.
Qed.

(** X17. An interrupt of the user during a request makes [main] leave with
    status 0: the pages fetched before it are neither shown nor saved. *)
Theorem main_interrupted fuel asked api_key youtube after before vss reqs tok :
  get_api_key h = (asked, inr api_key) ->
  build h api_key = Ok youtube ->
  _get_date_range (host_clock h) = Ok (after, before) ->
  answered youtube (request_params CHANNEL_ID 50 after before) [] PNone
    vss reqs tok ->
  youtube reqs (request_params CHANNEL_ID 50 after before tok) =
    Raise KeyboardInterrupt ->
  (length vss < fuel)%nat ->
  main h fuel =
    Some (asked ++ Build api_key ::
            (Request <$> reqs ++ [request_params CHANNEL_ID 50 after before tok]),
          Exited 0).
Proof.
  intros Hkey Hb Hw Ha Hy Hfuel.
  unfold main, try_main, _initialize_client. rewrite Hkey, Hb.
  by rewrite (fetch_videos_request_raises _ _ _ _ _ _ _ _ _ _ fuel Hw Ha Hy Hfuel).
Qed.

(** X18. When the client cannot be built, or the window cannot be
    computed, [main] leaves with status 1 and no request is issued. *)
Theorem main_fails_before_any_request fuel asked api_key :
  get_api_key h = (asked, inr api_key) ->
  (exists e, build h api_key = Raise e /\ is_Exception e = true) \/
  (exists youtube e, build h api_key = Ok youtube /\
                     _get_date_range (host_clock h) = Raise e) ->
  main h fuel = Some (asked ++ [Build api_key], Exited 1).
Proof.
  intros Hkey [(e & Hb & He) | (youtube & e & Hb & Hw)];
    unfold main, try_main, _initialize_client; rewrite Hkey, Hb.
  - by rewrite He.
  - unfold fetch_videos. rewrite Hw.
    by rewrite (get_date_range_raises _ _ Hw).
Qed.

End MainProperties.

(** ** The calendar *)

Section Calendar.


Lemma month_day_ok_all (leapyear : bool) n :
  0 <= n < (if leapyear then 366 else 365) ->
  month_day_ok leapyear n = true.
Proof.
  intros Hn.
  assert (Hall : forallb (month_day_ok true) (seqZ 0 366) = true /\
                 forallb (month_day_ok false) (seqZ 0 365) = true)
    by (split; vm_compute; reflexivity).
  destruct Hall as [Ht Hf]. rewrite forallb_forall in Ht, Hf.
  destruct leapyear; [apply Ht|apply Hf];
    apply list_elem_of_In, elem_of_seqZ; lia.
Qed.

Lemma ord2ymd_month_day n :
  ord2ymd n =
  let n0 := n - 1 in
  let n400 := n0 / DI400Y in
  let r400 := n0 mod DI400Y in
  let n100 := r400 / DI100Y in
  let r100 := r400 mod DI100Y in
  let n4 := r100 / DI4Y in
  let r4 := r100 mod DI4Y in
  let n1 := r4 / 365 in
  let r1 := r4 mod 365 in
  let y := n400 * 400 + 1 + n100 * 100 + n4 * 4 + n1 in
  if (n1 =? 4) || (n100 =? 4) then (y - 1, 12, 31)
  else
    let '(m, d) :=
      month_day r1 ((n1 =? 3) && (negb (n4 =? 24) || (n100 =? 3))) in
    (y, m, d).
Proof.
  unfold ord2ymd, month_day. cbv zeta.
  destruct (_ || _); [reflexivity|].
  destruct (_ <? _); reflexivity.
Qed.

Lemma is_leap_spec y :
  is_leap y = true <-> y mod 4 = 0 /\ (y mod 100 <> 0 \/ y mod 400 = 0).
Proof.
  unfold is_leap.
  rewrite andb_true_iff, orb_true_iff, negb_true_iff, !Z.eqb_eq, Z.eqb_neq.
  tauto.
Qed.

(** The day [n] has a date, and the date has the number [n]. *)
Lemma ord2ymd_spec n :
  1 <= n ->
  exists y m d,
    ord2ymd n = (y, m, d) /\ ymd2ord y m d = n /\
    1 <= y /\ 1 <= m <= 12 /\ 1 <= d <= days_in_month y m /\
    days_before_year y < n <= days_before_year (y + 1).
Proof.
  intros Hn. rewrite ord2ymd_month_day. cbv zeta. unfold DI400Y, DI100Y, DI4Y.
  set (n0 := n - 1).
  set (n400 := n0 / 146097). set (r400 := n0 mod 146097).
  set (n100 := r400 / 36524). set (r100 := r400 mod 36524).
  set (n4 := r100 / 1461). set (r4 := r100 mod 1461).
  set (n1 := r4 / 365). set (r1 := r4 mod 365).
  assert (H400 : n0 = 146097 * n400 + r400 /\ 0 <= r400 < 146097)
    by (subst n400 r400; split; [apply Z.div_mod|apply Z.mod_pos_bound]; lia).
  assert (H100 : r400 = 36524 * n100 + r100 /\ 0 <= r100 < 36524)
    by (subst n100 r100; split; [apply Z.div_mod|apply Z.mod_pos_bound]; lia).
  assert (H4 : r100 = 1461 * n4 + r4 /\ 0 <= r4 < 1461)
    by (subst n4 r4; split; [apply Z.div_mod|apply Z.mod_pos_bound]; lia).
  assert (H1 : r4 = 365 * n1 + r1 /\ 0 <= r1 < 365)
    by (subst n1 r1; split; [apply Z.div_mod|apply Z.mod_pos_bound]; lia).
  assert (Hn0 : n = n0 + 1) by (subst n0; lia).
  assert (Hq : 0 <= n400) by (subst n400; apply Z.div_pos; lia).
  clearbody n0 n400 r400 n100 r100 n4 r4 n1 r1.
  set (y := n400 * 400 + 1 + n100 * 100 + n4 * 4 + n1).
  destruct ((n1 =? 4) || (n100 =? 4)) eqn:Hspecial.
  - apply orb_true_iff in Hspecial. rewrite !Z.eqb_eq in Hspecial.
    exists (y - 1), 12, 31. split; [reflexivity|].
    assert (Hleap : is_leap (y - 1) = true).
    { apply is_leap_spec. subst y. Z.to_euclidean_division_equations. lia. }
    unfold ymd2ord, days_before_year, days_before_month, days_in_month.
    rewrite Hleap. simpl. subst y.
    Z.to_euclidean_division_equations. lia.
  - apply orb_false_iff in Hspecial. rewrite !Z.eqb_neq in Hspecial.
    set (leapyear := (n1 =? 3) && (negb (n4 =? 24) || (n100 =? 3))).
    assert (Hleap : is_leap y = leapyear).
    { apply eq_true_iff_eq. rewrite is_leap_spec. subst leapyear.
      rewrite andb_true_iff, orb_true_iff, negb_true_iff, !Z.eqb_eq, Z.eqb_neq.
      subst y. Z.to_euclidean_division_equations. lia. }
    pose proof (month_day_ok_all leapyear r1) as Hmd.
    unfold month_day_ok in Hmd.
    destruct (month_day r1 leapyear) as [m d].
    rewrite !andb_true_iff, !Z.leb_le, Z.eqb_eq in Hmd.
    destruct Hmd as [[[[Hm1 Hm2] Hd1] Hd2] Hsum]; [destruct leapyear; lia|].
    exists y, m, d. split; [reflexivity|].
    unfold ymd2ord, days_before_year, days_before_month, days_in_month.
    rewrite Hleap. subst y.
    Z.to_euclidean_division_equations. lia.
Qed.

Lemma days_before_year_succ y :
  days_before_year (y + 1) =
  days_before_year y + 365 + (if is_leap y then 1 else 0).
Proof.
  destruct (is_leap y) eqn:Hl.
  - apply is_leap_spec in Hl. unfold days_before_year.
    Z.to_euclidean_division_equations. lia.
  - assert (Hn : ~ (y mod 4 = 0 /\ (y mod 100 <> 0 \/ y mod 400 = 0))).
    { rewrite <- is_leap_spec. congruence. }
    unfold days_before_year. Z.to_euclidean_division_equations. lia.
Qed.

Lemma days_before_year_mono y y' :
  y <= y' -> days_before_year y <= days_before_year y'.
Proof.
  intros Hy. unfold days_before_year. Z.to_euclidean_division_equations. lia.
Qed.

Lemma months m : 1 <= m <= 12 ->
  m = 1 \/ m = 2 \/ m = 3 \/ m = 4 \/ m = 5 \/ m = 6 \/
  m = 7 \/ m = 8 \/ m = 9 \/ m = 10 \/ m = 11 \/ m = 12.
Proof. lia. Qed.

Lemma days_in_month_le y m : 1 <= m <= 12 -> days_in_month y m <= 31.
Proof.
  intros Hm. unfold days_in_month.
  destruct (months m Hm) as [->|[->|[->|[->|[->|[->|[->|[->|[->|[->|[->| ->]]]]]]]]]]];
    destruct (is_leap y); simpl; lia.
Qed.

Lemma valid_date_spec y m d :
  valid_date y m d = true <->
  1 <= y <= 9999 /\ 1 <= m <= 12 /\ 1 <= d <= days_in_month y m.
Proof.
  unfold valid_date. rewrite !andb_true_iff, !Z.leb_le. tauto.
Qed.

(** A date lies within its year. *)
Lemma ymd2ord_in_year y m d :
  1 <= m <= 12 -> 1 <= d <= days_in_month y m ->
  days_before_year y < ymd2ord y m d <= days_before_year (y + 1).
Proof.
  intros Hm Hd. rewrite days_before_year_succ.
  unfold ymd2ord, days_before_month. unfold days_in_month in Hd.
  destruct (is_leap y);
    destruct (months m Hm) as [->|[->|[->|[->|[->|[->|[->|[->|[->|[->|[->| ->]]]]]]]]]]];
    simpl in *; lia.
Qed.

(** Dates of one year are numbered in their order. *)
Lemma same_year_order y m d m' d' :
  1 <= m <= 12 -> 1 <= d <= days_in_month y m ->
  1 <= m' <= 12 -> 1 <= d' <= days_in_month y m' ->
  Z.compare (ymd2ord y m d) (ymd2ord y m' d') =
  match Z.compare m m' with Eq => Z.compare d d' | c => c end.
Proof.
  intros Hm Hd Hm' Hd'.
  unfold ymd2ord, days_before_month. unfold days_in_month in Hd, Hd'.
  destruct (is_leap y);
    destruct (months m Hm) as [->|[->|[->|[->|[->|[->|[->|[->|[->|[->|[->| ->]]]]]]]]]]];
    destruct (months m' Hm') as [->|[->|[->|[->|[->|[->|[->|[->|[->|[->|[->| ->]]]]]]]]]]];
    simpl in *;
    first [ apply Z.compare_lt_iff; lia | apply Z.compare_gt_iff; lia
          | rewrite <- !Z.add_assoc, !Z.add_compare_mono_l; reflexivity
          | destruct (Z.compare_spec d d') as [->| |];
            [ apply Z.compare_eq_iff; lia | apply Z.compare_lt_iff; lia
            | apply Z.compare_gt_iff; lia ] ].
Qed.

(** Dates are numbered in their order: first by year, then by month, then
    by day. *)
Lemma ymd2ord_compare y m d y' m' d' :
  1 <= m <= 12 -> 1 <= d <= days_in_month y m ->
  1 <= m' <= 12 -> 1 <= d' <= days_in_month y' m' ->
  Z.compare (ymd2ord y m d) (ymd2ord y' m' d') =
  match Z.compare y y' with
  | Eq => match Z.compare m m' with Eq => Z.compare d d' | c => c end
  | c => c
  end.
Proof.
  intros Hm Hd Hm' Hd'.
  pose proof (ymd2ord_in_year y m d Hm Hd) as Hy.
  pose proof (ymd2ord_in_year y' m' d' Hm' Hd') as Hy'.
  destruct (Z.compare_spec y y') as [->|Hlt|Hgt].
  - by apply same_year_order.
  - apply Z.compare_lt_iff.
    pose proof (days_before_year_mono (y + 1) y'). lia.
  - apply Z.compare_gt_iff.
    pose proof (days_before_year_mono (y' + 1) y). lia.
Qed.

(** The date of the number of a date is that date. *)
Lemma ord2ymd_ymd2ord y m d :
  1 <= y -> 1 <= m <= 12 -> 1 <= d <= days_in_month y m ->
  ord2ymd (ymd2ord y m d) = (y, m, d).
Proof.
  intros Hy Hm Hd.
  pose proof (ymd2ord_in_year y m d Hm Hd) as Hin.
  assert (H1 : 1 <= ymd2ord y m d).
  { pose proof (days_before_year_mono 1 y Hy) as Hmono.
    change (days_before_year 1) with 0 in Hmono. lia. }
  destruct (ord2ymd_spec _ H1) as (y' & m' & d' & -> & Heq & _ & Hm' & Hd' & _).
  pose proof (ymd2ord_compare y' m' d' y m d Hm' Hd' Hm Hd) as Hc.
  rewrite Heq, Z.compare_refl in Hc.
  destruct (Z.compare_spec y' y) as [->| |]; try discriminate.
  destruct (Z.compare_spec m' m) as [->| |]; try discriminate.
  symmetry in Hc. apply Z.compare_eq in Hc as ->. reflexivity.
Qed.

(** *** Arithmetic on date-times *)

Lemma timedelta_of_spec d s us :
  td_total (timedelta_of d s us) = (d * 86400 + s) * 1000000 + us /\
  0 <= td_seconds (timedelta_of d s us) < 86400 /\
  0 <= td_microseconds (timedelta_of d s us) < 1000000.
Proof.
  unfold td_total, timedelta_of. simpl.
  Z.to_euclidean_division_equations. lia.
Qed.

Lemma td_add_spec a b :
  td_total (td_add a b) = td_total a + td_total b /\
  0 <= td_seconds (td_add a b) < 86400 /\
  0 <= td_microseconds (td_add a b) < 1000000.
Proof.
  unfold td_add. destruct (timedelta_of_spec (td_days a + td_days b)
    (td_seconds a + td_seconds b) (td_microseconds a + td_microseconds b))
    as (Ht & Hs & Hu).
  split; [|done]. rewrite Ht. unfold td_total. lia.
Qed.

Lemma td_neg_spec a : td_total (td_neg a) = - td_total a.
Proof.
  unfold td_neg. destruct (timedelta_of_spec (- td_days a) (- td_seconds a)
    (- td_microseconds a)) as (Ht & _). rewrite Ht. unfold td_total. lia.
Qed.

Lemma valid_spec dt :
  valid dt = true <->
  (1 <= year dt <= 9999 /\ 1 <= month dt <= 12 /\
   1 <= day dt <= days_in_month (year dt) (month dt)) /\
  0 <= hour dt < 24 /\ 0 <= minute dt < 60 /\ 0 <= second dt < 60 /\
  0 <= microsecond dt < 1000000.
Proof.
  unfold valid, valid_time. rewrite andb_true_iff, valid_date_spec.
  rewrite !andb_true_iff, !Z.leb_le, !Z.ltb_lt. tauto.
Qed.

(** A valid date-time is within its day, and its day within the
    calendar. *)
Lemma valid_total dt :
  valid dt = true ->
  1 <= toordinal dt <= MAXORDINAL /\
  0 <= seconds_of_day dt < 86400 /\ 0 <= microsecond dt < 1000000.
Proof.
  rewrite valid_spec. intros ((Hy & Hm & Hd) & Hh & Hmi & Hs & Hus).
  unfold seconds_of_day, toordinal.
  pose proof (ymd2ord_in_year _ _ _ Hm Hd) as Hin.
  pose proof (days_before_year_mono 1 (year dt)) as H1.
  pose proof (days_before_year_mono (year dt + 1) 10000) as H2.
  change (days_before_year 1) with 0 in H1.
  change (days_before_year 10000) with MAXORDINAL in H2.
  lia.
Qed.

(** [dt + other], when it is in the calendar, is a valid date-time, the
    duration [other] after [dt]; it is in the calendar when its day is. *)
Lemma add_spec dt other :
  let total := dt_total dt + td_total other in
  let days := total / 86400000000 in
  match add dt other with
  | Ok dt' =>
      1 <= days <= MAXORDINAL /\ valid dt' = true /\ dt_total dt' = total
  | Raise e => e = OverflowError /\ ~ (1 <= days <= MAXORDINAL)
  end.
Proof.
  cbv zeta. unfold add.
  set (delta := td_add _ other).
  assert (Hdelta : td_total delta = dt_total dt + td_total other /\
                   0 <= td_seconds delta < 86400 /\
                   0 <= td_microseconds delta < 1000000).
  { subst delta. destruct (td_add_spec
      (timedelta_of (toordinal dt)
         (hour dt * 3600 + minute dt * 60 + second dt) (microsecond dt)) other)
      as (Ht & Hs & Hu).
    split; [|done]. rewrite Ht.
    destruct (timedelta_of_spec (toordinal dt)
      (hour dt * 3600 + minute dt * 60 + second dt) (microsecond dt)) as (-> & _).
    reflexivity. }
  clearbody delta. destruct Hdelta as (Ht & Hs & Hu). rewrite <- Ht.
  assert (Hdays : td_total delta / 86400000000 = td_days delta).
  { unfold td_total. Z.to_euclidean_division_equations. lia. }
  rewrite Hdays.
  destruct ((0 <? td_days delta) && (td_days delta <=? MAXORDINAL)) eqn:Hin.
  - apply andb_true_iff in Hin. rewrite Z.ltb_lt, Z.leb_le in Hin.
    destruct (ord2ymd_spec (td_days delta)) as
      (y & m & d & -> & Hord & Hy & Hm & Hd & Hyear); [lia|].
    split; [lia|]. split.
    + apply valid_spec. simpl. split.
      * split; [|done]. split; [done|].
        pose proof (days_before_year_mono 10000 y) as Hmono.
        change (days_before_year 10000) with MAXORDINAL in Hmono. lia.
      * Z.to_euclidean_division_equations. lia.
    + unfold dt_total, td_total, toordinal, seconds_of_day. simpl.
      rewrite Hord. Z.to_euclidean_division_equations. lia.
  - split; [reflexivity|].
    apply andb_false_iff in Hin. rewrite Z.ltb_ge, Z.leb_gt in Hin. lia.
Qed.

(** The components of a valid date-time are those of its total. *)
Lemma dt_total_inj dt dt' :
  valid dt = true -> valid dt' = true -> dt_total dt = dt_total dt' -> dt = dt'.
Proof.
  intros Hv Hv' Ht.
  pose proof (valid_total _ Hv) as (Ho & Hs & Hu).
  pose proof (valid_total _ Hv') as (Ho' & Hs' & Hu').
  apply valid_spec in Hv as ((Hy & Hm & Hd) & Hh & Hmi & Hse & _).
  apply valid_spec in Hv' as ((Hy' & Hm' & Hd') & Hh' & Hmi' & Hse' & _).
  unfold dt_total in Ht.
  assert (Hord : toordinal dt = toordinal dt') by lia.
  assert (Hsec : seconds_of_day dt = seconds_of_day dt') by lia.
  assert (Hus : microsecond dt = microsecond dt') by lia.
  unfold toordinal in Hord.
  pose proof (ord2ymd_ymd2ord _ _ _ (proj1 Hy) Hm Hd) as Hr.
  rewrite Hord, (ord2ymd_ymd2ord _ _ _ (proj1 Hy') Hm' Hd') in Hr.
  injection Hr as Hyy Hmm Hdd.
  unfold seconds_of_day in Hsec.
  destruct dt, dt'; simpl in *. f_equal; lia.
Qed.

(** *** The wire format *)

Lemma digits a : 0 <= a <= 9 ->
  a = 0 \/ a = 1 \/ a = 2 \/ a = 3 \/ a = 4 \/ a = 5 \/ a = 6 \/
  a = 7 \/ a = 8 \/ a = 9.
Proof. lia. Qed.

Lemma digit_compare a b :
  0 <= a <= 9 -> 0 <= b <= 9 ->
  Ascii.compare (digit a) (digit b) = Z.compare a b.
Proof.
  intros Ha Hb.
  destruct (digits a Ha) as [->|[->|[->|[->|[->|[->|[->|[->|[->| ->]]]]]]]]];
    destruct (digits b Hb) as [->|[->|[->|[->|[->|[->|[->|[->|[->| ->]]]]]]]]];
    reflexivity.
Qed.

Lemma digit_inj a b :
  0 <= a <= 9 -> 0 <= b <= 9 -> digit a = digit b -> a = b.
Proof.
  intros Ha Hb Heq. apply Z.compare_eq. rewrite <- digit_compare by done.
  rewrite Heq, digit_compare by done. apply Z.compare_refl.
Qed.

Lemma digits2 a :
  0 <= a <= 99 ->
  exists q r, 0 <= q <= 9 /\ 0 <= r <= 9 /\ a = 10 * q + r /\
              a / 10 mod 10 = q /\ a mod 10 = r.
Proof.
  intros Ha. exists (a / 10 mod 10), (a mod 10).
  Z.to_euclidean_division_equations. lia.
Qed.

(** Numbers written with two digits compare as the numbers do. *)
Lemma zfill2_compare a b s t :
  0 <= a <= 99 -> 0 <= b <= 99 ->
  String.compare (zfill2 a +:+ s) (zfill2 b +:+ t) =
  match Z.compare a b with Eq => String.compare s t | c => c end.
Proof.
  intros Ha Hb. unfold zfill2.
  destruct (digits2 a Ha) as (qa & ra & Hqa & Hra & -> & -> & ->).
  destruct (digits2 b Hb) as (qb & rb & Hqb & Hrb & -> & -> & ->).
  change (String.compare (String (digit qa) (String (digit ra) s))
                         (String (digit qb) (String (digit rb) t)) =
          match 10 * qa + ra ?= 10 * qb + rb with
          | Eq => String.compare s t | c => c end).
  cbn [String.compare]. rewrite !digit_compare by done.
  destruct (Z.compare_spec qa qb) as [->| |].
  - destruct (Z.compare_spec ra rb) as [->| |].
    + by rewrite Z.compare_refl.
    + by rewrite (proj2 (Z.compare_lt_iff _ _)) by lia.
    + by rewrite (proj2 (Z.compare_gt_iff _ _)) by lia.
  - by rewrite (proj2 (Z.compare_lt_iff _ _)) by lia.
  - by rewrite (proj2 (Z.compare_gt_iff _ _)) by lia.
Qed.

Lemma zfill4_zfill2 a s :
  0 <= a <= 9999 ->
  zfill4 a +:+ s = zfill2 (a / 100) +:+ zfill2 (a mod 100) +:+ s.
Proof.
  intros Ha. unfold zfill4, zfill2.
  assert (H1 : a / 100 / 10 mod 10 = a / 1000 mod 10)
    by (Z.to_euclidean_division_equations; lia).
  assert (H2 : (a / 100) mod 10 = a / 100 mod 10) by reflexivity.
  assert (H3 : a mod 100 / 10 mod 10 = a / 10 mod 10)
    by (Z.to_euclidean_division_equations; lia).
  assert (H4 : (a mod 100) mod 10 = a mod 10)
    by (Z.to_euclidean_division_equations; lia).
  rewrite H1, H3, H4. reflexivity.
Qed.

Lemma zfill4_compare a b s t :
  0 <= a <= 9999 -> 0 <= b <= 9999 ->
  String.compare (zfill4 a +:+ s) (zfill4 b +:+ t) =
  match Z.compare a b with Eq => String.compare s t | c => c end.
Proof.
  intros Ha Hb. rewrite !zfill4_zfill2 by done.
  assert (Hqa : 0 <= a / 100 <= 99 /\ 0 <= a mod 100 <= 99 /\
                a = 100 * (a / 100) + a mod 100)
    by (Z.to_euclidean_division_equations; lia).
  assert (Hqb : 0 <= b / 100 <= 99 /\ 0 <= b mod 100 <= 99 /\
                b = 100 * (b / 100) + b mod 100)
    by (Z.to_euclidean_division_equations; lia).
  destruct Hqa as (Ha1 & Ha0 & Hae). destruct Hqb as (Hb1 & Hb0 & Hbe).
  rewrite !zfill2_compare by done.
  destruct (Z.compare_spec (a / 100) (b / 100)) as [Heq| |].
  - destruct (Z.compare_spec (a mod 100) (b mod 100)) as [Heq0| |].
    + by rewrite (proj2 (Z.compare_eq_iff a b)) by lia.
    + by rewrite (proj2 (Z.compare_lt_iff a b)) by lia.
    + by rewrite (proj2 (Z.compare_gt_iff a b)) by lia.
  - by rewrite (proj2 (Z.compare_lt_iff a b)) by lia.
  - by rewrite (proj2 (Z.compare_gt_iff a b)) by lia.
Qed.

Lemma string_compare_refl s : String.compare s s = Eq.
Proof.
  pose proof (String.compare_antisym s s) as Ha.
  destruct (String.compare s s); try discriminate; reflexivity.
Qed.

Lemma zfill2_inj a b :
  0 <= a <= 99 -> 0 <= b <= 99 -> zfill2 a = zfill2 b -> a = b.
Proof.
  intros Ha Hb Heq.
  pose proof (zfill2_compare a b "" "" Ha Hb) as Hc.
  rewrite Heq in Hc.
  rewrite string_compare_refl in Hc. destruct (Z.compare_spec a b); congruence.
Qed.

Lemma zfill4_inj a b :
  0 <= a <= 9999 -> 0 <= b <= 9999 -> zfill4 a = zfill4 b -> a = b.
Proof.
  intros Ha Hb Heq.
  pose proof (zfill4_compare a b "" "" Ha Hb) as Hc.
  rewrite Heq in Hc.
  rewrite string_compare_refl in Hc. destruct (Z.compare_spec a b); congruence.
Qed.

Lemma sep_compare c s t :
  String.compare (String c "" +:+ s) (String c "" +:+ t) = String.compare s t.
Proof.
  simpl. pose proof (Ascii.compare_antisym c c) as Ha.
  destruct (Ascii.compare c c); try discriminate; reflexivity.
Qed.

(** The wire format orders date-times as they follow each other, to the
    second. *)
Lemma strftime_wire_compare a b :
  valid a = true -> valid b = true ->
  String.compare (strftime a wire_format) (strftime b wire_format) =
  Z.compare (toordinal a * 86400 + seconds_of_day a)
            (toordinal b * 86400 + seconds_of_day b).
Proof.
  intros Ha Hb.
  pose proof (valid_total _ Ha) as (Hoa & Hsa & _).
  pose proof (valid_total _ Hb) as (Hob & Hsb & _).
  apply valid_spec in Ha as ((Hya & Hma & Hda) & Hha & Hmia & Hsea & _).
  apply valid_spec in Hb as ((Hyb & Hmb & Hdb) & Hhb & Hmib & Hseb & _).
  pose proof (days_in_month_le (year a) _ Hma).
  pose proof (days_in_month_le (year b) _ Hmb).
  rewrite !strftime_wire_format.
  rewrite zfill4_compare by lia. rewrite sep_compare.
  rewrite zfill2_compare by lia. rewrite sep_compare.
  rewrite zfill2_compare by lia. rewrite sep_compare.
  rewrite zfill2_compare by lia. rewrite sep_compare.
  rewrite zfill2_compare by lia. rewrite sep_compare.
  rewrite zfill2_compare by lia. rewrite string_compare_refl.
  pose proof (ymd2ord_compare _ _ _ _ _ _ Hma Hda Hmb Hdb) as Hord.
  fold (toordinal a) in Hord. fold (toordinal b) in Hord.
  revert Hord. unfold seconds_of_day in *.
  destruct (Z.compare_spec (year a) (year b)) as [Hy| |];
    [destruct (Z.compare_spec (month a) (month b)) as [Hm| |];
     [destruct (Z.compare_spec (day a) (day b)) as [Hd| |]| |]| |];
    intros Hord;
    [ apply Z.compare_eq in Hord
    | rewrite Z.compare_lt_iff in Hord; symmetry; apply Z.compare_lt_iff; lia
    | rewrite Z.compare_gt_iff in Hord; symmetry; apply Z.compare_gt_iff; lia
    | rewrite Z.compare_lt_iff in Hord; symmetry; apply Z.compare_lt_iff; lia
    | rewrite Z.compare_gt_iff in Hord; symmetry; apply Z.compare_gt_iff; lia
    | rewrite Z.compare_lt_iff in Hord; symmetry; apply Z.compare_lt_iff; lia
    | rewrite Z.compare_gt_iff in Hord; symmetry; apply Z.compare_gt_iff; lia ].
  destruct (Z.compare_spec (hour a) (hour b)) as [Hh| |];
    [destruct (Z.compare_spec (minute a) (minute b)) as [Hmi| |];
     [destruct (Z.compare_spec (second a) (second b)) as [Hs| |]| |]| |];
    symmetry;
    [ apply Z.compare_eq_iff; lia
    | apply Z.compare_lt_iff; lia | apply Z.compare_gt_iff; lia
    | apply Z.compare_lt_iff; lia | apply Z.compare_gt_iff; lia
    | apply Z.compare_lt_iff; lia | apply Z.compare_gt_iff; lia ].
Qed.


End Calendar.

(** ** More on the window *)

Section Window.

(** The local date-time of the host, and the one 365 days before it. *)
Lemma get_date_range_spec clk after before :
  _get_date_range clk = Ok (after, before) ->
  exists today one_year_ago,
    now clk = Ok today /\
    before = strftime today wire_format /\
    after = strftime one_year_ago wire_format /\
    valid today = true /\ valid one_year_ago = true /\
    dt_total today = dt_total (utc_now clk) + utcoffset clk * 1000000 /\
    dt_total one_year_ago = dt_total today - 365 * 86400 * 1000000.
Proof.
  rewrite get_date_range_Ok. intros (today & ago & Hnow & Hsub & -> & ->).
  exists today, ago. split; [exact Hnow|]. split; [done|]. split; [done|].
  unfold now in Hnow. unfold sub in Hsub.
  pose proof (add_spec (utc_now clk) (timedelta_of 0 (utcoffset clk) 0)) as H1.
  pose proof (add_spec today (td_neg (timedelta_of 365 0 0))) as H2.
  cbv zeta in H1, H2. rewrite Hnow in H1. rewrite Hsub in H2.
  destruct H1 as (_ & Hv1 & Ht1). destruct H2 as (_ & Hv2 & Ht2).
  rewrite td_neg_spec in Ht2.
  destruct (timedelta_of_spec 0 (utcoffset clk) 0) as (Hoff & _).
  destruct (timedelta_of_spec 365 0 0) as (H365 & _).
  rewrite Hoff in Ht1. rewrite H365 in Ht2.
  repeat split; try done; lia.
Qed.

(** X19. The window is 365 days long to the microsecond: its start is
    the valid calendar date-time 365 days before the local date-time
    [datetime.now()] it ends at, at the same time of day. *)
Theorem get_date_range_365_days clk after before :
  _get_date_range clk = Ok (after, before) ->
  exists today one_year_ago,
    now clk = Ok today /\
    before = strftime today wire_format /\
    after = strftime one_year_ago wire_format /\
    valid today = true /\ valid one_year_ago = true /\
    toordinal one_year_ago = toordinal today - 365 /\
    hour one_year_ago = hour today /\
    minute one_year_ago = minute today /\
    second one_year_ago = second today /\
    microsecond one_year_ago = microsecond today.
Proof.
  intros Hr.
  destruct (get_date_range_spec _ _ _ Hr)
    as (today & ago & Hnow & -> & -> & Hv & Hva & _ & Ht).
  exists today, ago. do 5 (split; [done|]).
  pose proof (valid_total _ Hv) as (Ho & Hs & Hu).
  pose proof (valid_total _ Hva) as (Ho' & Hs' & Hu').
  apply valid_spec in Hv as (_ & Hh & Hmi & Hse & _).
  apply valid_spec in Hva as (_ & Hh' & Hmi' & Hse' & _).
  unfold dt_total in Ht. unfold seconds_of_day in *. lia.
Qed.


(** X21. The window exists exactly when the local date is in year 2 or
    later; in year 1 the start would be before the calendar and the
    subtraction raises [OverflowError]. *)
Theorem get_date_range_year_one clk today :
  now clk = Ok today ->
  if 2 <=? year today
  then exists after before, _get_date_range clk = Ok (after, before)
  else _get_date_range clk = Raise OverflowError.
Proof.
  intros Hnow.
  pose proof (add_spec (utc_now clk) (timedelta_of 0 (utcoffset clk) 0)) as H1.
  cbv zeta in H1. fold (now clk) in H1. rewrite Hnow in H1.
  destruct H1 as (_ & Hv & _).
  pose proof (valid_total _ Hv) as (Ho & Hs & Hu).
  pose proof Hv as Hv'.
  apply valid_spec in Hv' as ((Hy & Hm & Hd) & _).
  pose proof (ymd2ord_in_year _ _ _ Hm Hd) as Hin. fold (toordinal today) in Hin.
  pose proof (add_spec today (td_neg (timedelta_of 365 0 0))) as H2.
  cbv zeta in H2. fold (sub today (timedelta_of 365 0 0)) in H2.
  rewrite td_neg_spec in H2.
  destruct (timedelta_of_spec 365 0 0) as (H365 & _). rewrite H365 in H2.
  assert (Hdays : (dt_total today - (365 * 86400 + 0) * 1000000 - 0)
                  / 86400000000 = toordinal today - 365).
  { unfold dt_total. Z.to_euclidean_division_equations. lia. }
  replace (dt_total today + - ((365 * 86400 + 0) * 1000000 + 0))
    with (dt_total today - (365 * 86400 + 0) * 1000000 - 0) in H2 by lia.
  rewrite Hdays in H2. unfold _get_date_range. rewrite Hnow. simpl.
  destruct (Z.leb_spec 2 (year today)) as [Hy2|Hy2].
  - pose proof (days_before_year_mono 2 (year today) Hy2) as Hmono.
    change (days_before_year 2) with 365 in Hmono.
    destruct (sub today (timedelta_of 365 0 0)) as [ago|e].
    + simpl. eauto.
    + destruct H2 as (_ & H2). exfalso. apply H2. lia.
  - assert (year today = 1) as Hy1 by lia. rewrite Hy1 in Hin.
    change (days_before_year (1 + 1)) with 365 in Hin.
    destruct (sub today (timedelta_of 365 0 0)) as [ago|e].
    + lia.
    + simpl. destruct H2 as (-> & _). reflexivity.
Qed.

(** X22. The end of the window is the current instant in UTC exactly on
    a host whose local zone has offset zero; at any other offset the [Z]
    of the format marks a local time. *)
Theorem get_date_range_utc_iff clk after before :
  valid (utc_now clk) = true ->
  _get_date_range clk = Ok (after, before) ->
  before = strftime (utc_now clk) wire_format <-> utcoffset clk = 0.
Proof.
  intros Hvu Hr.
  destruct (get_date_range_spec _ _ _ Hr)
    as (today & ago & Hnow & -> & -> & Hv & Hva & Ht & _).
  split.
  - intros Heq.
    pose proof (strftime_wire_compare _ _ Hv Hvu) as Hc.
    rewrite Heq, string_compare_refl in Hc. symmetry in Hc.
    apply Z.compare_eq in Hc.
    pose proof (valid_total _ Hv) as (Ho & Hs & Hu).
    pose proof (valid_total _ Hvu) as (Ho' & Hs' & Hu').
    unfold dt_total in Ht. lia.
  - intros Hoff. rewrite Hoff in Ht. f_equal.
    apply dt_total_inj; [done|done|lia].
Qed.

End Window.
(** ** The further properties at sample inputs *)

(** The keys of the record of the sample item. *)
Lemma process_video_items_keys_witness :
  Forall (fun rec => exists d, rec = PDict d /\ dom d = record_keys)
    [sample_record "abc123" (PStr "")].
Proof.
  apply (@process_video_items_keys sample_repr (PList [sample_item "abc123" ∅])).
  run.
Defined.

(** The fields of the record of an item with a default thumbnail. *)
Lemma process_video_items_fields_witness :
  Forall2 (fun item rec =>
    record_field rec "video_id" = nested_field item "id" "videoId" /\
    record_field rec "title" = nested_field item "snippet" "title" /\
    record_field rec "description" = nested_field item "snippet" "description" /\
    record_field rec "published_at" = nested_field item "snippet" "publishedAt" /\
    record_field rec "channel_title" = nested_field item "snippet" "channelTitle" /\
    record_field rec "thumbnail_url" =
      Some (default (PStr "") (default_thumbnail_url item)))
    [sample_item "abc123"
       {[ "default" := PDict {[ "url" := PStr "https://i.ytimg.com/vi/abc123/default.jpg" ]} ]}]
    [sample_record "abc123" (PStr "https://i.ytimg.com/vi/abc123/default.jpg")].
Proof.
  apply (@process_video_items_fields sample_repr). run.
Defined.

(** [items] null, as in a response with [items: null]. *)
Lemma process_video_items_not_a_list_witness :
  @_process_video_items sample_repr PNone = Raise TypeError.
Proof.
  apply (proj2 (@process_video_items_not_a_list sample_repr PNone
                  (fun l => ltac:(discriminate))));
    discriminate.
Defined.

(** A page with a cursor, then an HTTP 403: the list returned is the one
    whole page. *)
Lemma fetch_videos_returns_pages_witness :
  exists vss reqs0 tok vs,
    answered (H := sample_repr)
      (mock_service [Ok (sample_page [sample_item "v1" ∅] (Some (PStr "t1")));
                     Raise (HttpError 403)])
      sample_request [] PNone vss reqs0 tok /\
    last_turn (H := sample_repr)
      (mock_service [Ok (sample_page [sample_item "v1" ∅] (Some (PStr "t1")));
                     Raise (HttpError 403)])
      sample_request reqs0 tok vs (Ok tt) /\
    [sample_record "v1" (PStr "")] = concat vss ++ vs /\
    [sample_request PNone; sample_request (PStr "t1")] = reqs0 ++ [sample_request tok] /\
    length [sample_request PNone; sample_request (PStr "t1")] = S (length vss).
Proof.
  apply (@fetch_videos_returns_pages sample_repr _ sample_clock
           "UC-tE4p-L9f0-w1T1-v8a-qA" 50 _ _ sample_window 5).
  apply (@fetch_videos_request_raises sample_repr _ _ _ _ _ _
           [[sample_record "v1" (PStr "")]] [sample_request PNone] (PStr "t1")
           (HttpError 403) 5 sample_window
           (sample_answered [Raise (HttpError 403)]) eq_refl).
  simpl. lia.
Defined.


(** A service that always answers with an empty page and a cursor: a
    hundred turns do not end the loop. *)
Lemma fetch_videos_never_ends_witness :
  @fetch_videos sample_repr (constant_service (sample_page [] (Some (PStr "t1"))))
    sample_clock "UC-tE4p-L9f0-w1T1-v8a-qA" 50 100 = None.
Proof.
  apply (@fetch_videos_never_ends sample_repr _ sample_clock
           "UC-tE4p-L9f0-w1T1-v8a-qA" 50 _ _ sample_window 100).
  intros hist tok. exists (sample_page [] (Some (PStr "t1"))), [], (PStr "t1").
  split; [reflexivity|]. split; run.
Defined.

(** The one request of a run that ends on an HTTP 403. *)
Lemma fetch_videos_request_filters_witness :
  [sample_request PNone] <> [] /\
  Forall (fun q : gmap string pyval =>
    q !! "part" = Some (PStr "snippet") /\
    q !! "channelId" = Some (PStr "UC-tE4p-L9f0-w1T1-v8a-qA") /\
    q !! "publishedAfter" = Some (PStr "2024-10-26T08:00:00Z") /\
    q !! "publishedBefore" = Some (PStr "2025-10-26T08:00:00Z") /\
    q !! "videoDuration" = Some (PStr "short") /\
    q !! "type" = Some (PStr "video") /\
    q !! "maxResults" = Some (PInt 50) /\
    q !! "order" = Some (PStr "date") /\
    dom q ⊆ {[ "part"; "channelId"; "publishedAfter"; "publishedBefore";
               "videoDuration"; "type"; "maxResults"; "order"; "pageToken" ]})
    [sample_request PNone].
Proof.
  apply (@fetch_videos_request_filters sample_repr
           (mock_service [Raise (HttpError 403)]) sample_clock
           "UC-tE4p-L9f0-w1T1-v8a-qA" 50 _ _ sample_window 1 _ (Ok [])).
  apply (@fetch_videos_request_raises sample_repr _ _ _ _ _ _
           [] [] PNone (HttpError 403) 1 sample_window
           (answered_nil _ _ _ _) eq_refl).
  simpl. lia.
Defined.

(** A second response that is a list. *)
Lemma fetch_videos_response_not_a_mapping_witness :
  @fetch_videos sample_repr
    (mock_service [Ok (sample_page [sample_item "v1" ∅] (Some (PStr "t1")));
                   Ok (PList [])])
    sample_clock "UC-tE4p-L9f0-w1T1-v8a-qA" 50 5 =
  Some ([sample_request PNone] ++ [sample_request (PStr "t1")],
        Ok (concat [[sample_record "v1" (PStr "")]])).
Proof.
  apply (@fetch_videos_response_not_a_mapping sample_repr _ _ _ _ _ _ sample_window
           [[sample_record "v1" (PStr "")]] [sample_request PNone] (PStr "t1")
           (PList []) 5).
  - apply sample_answered.
  - reflexivity.
  - discriminate.
  - simpl. lia.
Defined.

(** A page with a cursor, then an interrupt. *)
Lemma fetch_videos_interrupt_witness :
  @fetch_videos sample_repr
    (mock_service [Ok (sample_page [sample_item "v1" ∅] (Some (PStr "t1")));
                   Raise KeyboardInterrupt])
    sample_clock "UC-tE4p-L9f0-w1T1-v8a-qA" 50 5 =
  Some ([sample_request PNone] ++ [sample_request (PStr "t1")],
        Raise KeyboardInterrupt).
Proof.
  apply (@fetch_videos_interrupt sample_repr _ _ _ _ _ _ sample_window
           [[sample_record "v1" (PStr "")]] [sample_request PNone] (PStr "t1")
           KeyboardInterrupt 5).
  - apply sample_answered.
  - reflexivity.
  - reflexivity.
  - simpl. lia.
Defined.

(** The summary of the record of one item: eight lines. *)
Lemma print_video_summary_of_records_witness :
  exists lines,
    @print_video_summary sample_repr [sample_record "abc123" (PStr "")] =
      (lines, Ok tt) /\
    length lines =
      (if decide ([sample_record "abc123" (PStr "")] = []) then 1
       else 4 + 4 * length [sample_item "abc123" ∅])%nat /\
    forall n item video_id title,
      [sample_item "abc123" ∅] !! n = Some item ->
      nested_field item "id" "videoId" = Some video_id ->
      nested_field item "snippet" "title" = Some title ->
      lines !! (3 + 4 * n)%nat =
        Some (nl +:+ format_3d (S n) +:+ ". " +:+ @py_str sample_repr title) /\
      lines !! (3 + 4 * n + 3)%nat =
        Some ("     URL: https://www.youtube.com/watch?v=" +:+
              @py_str sample_repr video_id).
Proof.
  apply (@print_video_summary_of_records sample_repr). run.
Defined.

(** A second video without a title: the heading and the first entry are
    printed. *)
Lemma print_video_summary_missing_title_witness :
  exists lines,
    @print_video_summary sample_repr
      ([sample_record "v1" (PStr "")] ++ PDict {[ "video_id" := PStr "v2" ]} :: []) =
      (lines, Raise (KeyError "title")) /\
    length lines = (3 + 4 * length [sample_record "v1" (PStr "")])%nat.
Proof.
  apply (@print_video_summary_missing_title sample_repr).
  - constructor; [run|constructor].
  - run.
Defined.

(** No key in the environment, and an empty line at the prompt. *)
Lemma main_no_api_key_witness :
  @main sample_repr
    (mk_host None (Ok "") (fun _ => Ok (mock_service [])) sample_clock
             (fun _ _ => Ok tt)) 1 =
  Some ([Prompt], Exited 1).
Proof.
  apply (@main_no_api_key sample_repr); [by left|reflexivity].
Defined.

(** The key of the sample host. *)
Lemma main_api_key_witness :
  "sample-key" <> "" /\
  ((env_api_key (sample_host (mock_service [Ok (sample_page [] None)])) =
      Some "sample-key" /\
    Prompt ∉ [Build "sample-key"; Request (sample_request PNone)]) \/
   ((env_api_key (sample_host (mock_service [Ok (sample_page [] None)])) = None \/
     env_api_key (sample_host (mock_service [Ok (sample_page [] None)])) = Some "") /\
    prompt_api_key (sample_host (mock_service [Ok (sample_page [] None)])) =
      Ok "sample-key")).
Proof.
  apply (@main_api_key sample_repr
           (sample_host (mock_service [Ok (sample_page [] None)])) 1
           [Build "sample-key"; Request (sample_request PNone)] Returned).
  - run.
  - constructor.
Defined.

(** What the sample host saves after a run of one page with one item. *)
Lemma main_saves_what_was_fetched_witness :
  "youtube_videos.json" = "youtube_videos.json" /\
  [sample_record "v1" (PStr "")] <> [] /\
  exists api_key youtube reqs,
    build (sample_host (mock_service [Ok (sample_page [sample_item "v1" ∅] None)]))
      api_key = Ok youtube /\
    @fetch_videos sample_repr youtube
      (host_clock (sample_host (mock_service [Ok (sample_page [sample_item "v1" ∅] None)])))
      CHANNEL_ID 50 1 =
      Some (reqs, Ok [sample_record "v1" (PStr "")]).
Proof.
  apply (@main_saves_what_was_fetched sample_repr
           (sample_host (mock_service [Ok (sample_page [sample_item "v1" ∅] None)])) 1
           [Build "sample-key"; Request (sample_request PNone);
            Summary (fst (@print_video_summary sample_repr [sample_record "v1" (PStr "")]));
            Save "youtube_videos.json" [sample_record "v1" (PStr "")]]
           Returned).
  - run.
  - do 3 apply list_elem_of_further. apply list_elem_of_here.
Defined.

(** A run of the sample host over one page with one item. *)
Lemma main_fetched_videos_saved_witness :
  exists lines,
    @print_video_summary sample_repr [sample_record "v1" (PStr "")] = (lines, Ok tt) /\
    @main sample_repr
      (sample_host (mock_service [Ok (sample_page [sample_item "v1" ∅] None)])) 1 =
      Some ([] ++ Build "sample-key" :: (Request <$> [sample_request PNone]) ++
              [Summary lines; Save "youtube_videos.json" [sample_record "v1" (PStr "")]],
            Returned).
Proof.
  apply (@main_fetched_videos_saved sample_repr
           (sample_host (mock_service [Ok (sample_page [sample_item "v1" ∅] None)]))
           1 [] "sample-key"
           (mock_service [Ok (sample_page [sample_item "v1" ∅] None)])).
  - reflexivity.
  - reflexivity.
  - run.
  - discriminate.
  - discriminate.
Defined.

(** An HTTP 403 at the first request. *)
Lemma main_first_request_fails_witness :
  @main sample_repr (sample_host (mock_service [Raise (HttpError 403)])) 1 =
  Some ([] ++ [Build "sample-key"; Request (sample_request PNone)], Returned).
Proof.
  apply (@main_first_request_fails sample_repr
           (sample_host (mock_service [Raise (HttpError 403)])) 1 [] "sample-key"
           (mock_service [Raise (HttpError 403)])
           "2024-10-26T08:00:00Z" "2025-10-26T08:00:00Z" (HttpError 403)).
  - reflexivity.
  - reflexivity.
  - apply sample_window.
  - reflexivity.
  - reflexivity.
  - lia.
Defined.

(** A page with a cursor, then an interrupt during the second request. *)
Lemma main_interrupted_witness :
  @main sample_repr
    (sample_host
       (mock_service [Ok (sample_page [sample_item "v1" ∅] (Some (PStr "t1")));
                      Raise KeyboardInterrupt])) 5 =
  Some ([] ++ Build "sample-key" ::
          (Request <$> [sample_request PNone] ++ [sample_request (PStr "t1")]),
        Exited 0).
Proof.
  apply (@main_interrupted sample_repr
           (sample_host
              (mock_service [Ok (sample_page [sample_item "v1" ∅] (Some (PStr "t1")));
                             Raise KeyboardInterrupt]))
           5 [] "sample-key"
           (mock_service [Ok (sample_page [sample_item "v1" ∅] (Some (PStr "t1")));
                          Raise KeyboardInterrupt])
           "2024-10-26T08:00:00Z" "2025-10-26T08:00:00Z"
           [[sample_record "v1" (PStr "")]] [sample_request PNone] (PStr "t1")).
  - reflexivity.
  - reflexivity.
  - apply sample_window.
  - apply sample_answered.
  - reflexivity.
  - simpl. lia.
Defined.

(** A client library that refuses the key. *)
Lemma main_fails_before_any_request_witness :
  @main sample_repr
    (mk_host (Some "sample-key") (Ok "") (fun _ => Raise (HttpError 400))
             sample_clock (fun _ _ => Ok tt)) 1 =
  Some ([] ++ [Build "sample-key"], Exited 1).
Proof.
  apply (@main_fails_before_any_request sample_repr); [reflexivity|].
  left. exists (HttpError 400). split; reflexivity.
Defined.

(** The window of the sample clock. *)
Lemma get_date_range_365_days_witness :
  exists today one_year_ago,
    now sample_clock = Ok today /\
    "2025-10-26T08:00:00Z" = strftime today wire_format /\
    "2024-10-26T08:00:00Z" = strftime one_year_ago wire_format /\
    valid today = true /\ valid one_year_ago = true /\
    toordinal one_year_ago = toordinal today - 365 /\
    hour one_year_ago = hour today /\
    minute one_year_ago = minute today /\
    second one_year_ago = second today /\
    microsecond one_year_ago = microsecond today.
Proof.
  apply (get_date_range_365_days sample_clock _ _ sample_window).
Defined.


(** A clock in June of year 1: there is no date 365 days before. *)
Lemma get_date_range_year_one_witness :
  _get_date_range (mk_clock (mk_datetime 1 6 1 12 0 0 0) 0) = Raise OverflowError.
Proof.
  exact (get_date_range_year_one (mk_clock (mk_datetime 1 6 1 12 0 0 0) 0)
           (mk_datetime 1 6 1 12 0 0 0) eq_refl).
Defined.

(** The sample clock is four hours behind UTC. *)
Lemma get_date_range_utc_iff_witness :
  "2025-10-26T08:00:00Z" = strftime (utc_now sample_clock) wire_format <->
  utcoffset sample_clock = 0.
Proof.
  apply (get_date_range_utc_iff sample_clock "2024-10-26T08:00:00Z").
  - reflexivity.
  - apply sample_window.
Defined.
